(** * nodeup configuration assembly (pkg/apis/nodeup/config.go)

    A shallow embedding of [NewConfig] and of the role filters it calls,
    [filterHooks], [filterFileAssets] and [containsRole].

    Go slices are modelled as headers (array, offset, length, capacity) over
    a store of backing arrays, so that [append] writing into spare capacity
    and the copy made by [range] are visible in the model.  The declarations
    of package [kops] that the file uses but does not contain (struct fields
    it never reads, helper methods, constants) are taken as parameters,
    collected in the classes [KopsTypes] and [KopsMethods]. *)

From Stdlib Require Import Ascii String.
From stdpp Require Import base list strings gmap.

Set Default Proof Using "Type".

(* ===================================================================== *)
(** * Part I: the embedding                                               *)
(* ===================================================================== *)

(** ** The Go runtime: slices over backing arrays *)

(** A slice header.  [ptr] names the backing array ([None] for a nil
    pointer), [off] is the position of the slice's first element in it. *)
Record Slice := mkSlice {
  ptr : option nat;
  off : nat;
  len : nat;
  cap : nat;
}.

(** [var s []T]: the nil slice. *)
Definition nilSlice : Slice := mkSlice None 0 0 0.

(** The zero value of a type. *)
Class Zero (T : Type) := zero : T.

(** The capacity that the runtime adds beyond what is needed when [append]
    has to move a slice (first argument: the old capacity, second: the
    length needed).  The growth policy is the runtime's, not the program's. *)
Class GoRuntime := spare : nat → nat → nat.

(** The store of backing arrays of element type [T]: the array with
    address [a] is the [a]-th entry. *)
Abbreviation Heap T := (list (list T)).

Section slices.
Context `{GoRuntime} {T : Type} `{Zero T}.

Definition arrayAt (m : Heap T) (p : option nat) : list T :=
  match p with
  | Some a => default [] (m !! a)
  | None => []
  end.

(** [s[i]] *)
Definition index (m : Heap T) (s : Slice) (i : nat) : T :=
  default zero (arrayAt m (ptr s) !! (off s + i)).

(** The elements [s[0]], ..., [s[len(s)-1]] as currently stored. *)
Definition contents (m : Heap T) (s : Slice) : list T :=
  index m s <$> seq 0 (len s).

(** Writing [xs] into the array of [s], from [s[i]] on. *)
Definition store (s : Slice) (i : nat) (xs : list T) (m : Heap T) : Heap T :=
  match ptr s with
  | Some a => alter (list_inserts (off s + i) xs) a m
  | None => m
  end.

(** [append] when the capacity does not suffice: a new array receives the
    old elements and the new ones. *)
Definition growslice (s : Slice) (xs : list T) (m : Heap T) : Slice * Heap T :=
  let need := len s + length xs in
  let newcap := need + spare (cap s) need in
  (mkSlice (Some (length m)) 0 need newcap,
   m ++ [contents m s ++ xs ++ replicate (newcap - need) zero]).

(** [append(s, xs...)]: in place when the capacity suffices. *)
Definition appendList (s : Slice) (xs : list T) (m : Heap T) : Slice * Heap T :=
  if decide (len s + length xs ≤ cap s) then
    (mkSlice (ptr s) (off s) (len s + length xs) (cap s), store s (len s) xs m)
  else growslice s xs m.

(** [append(s, x)] *)
Definition append (s : Slice) (x : T) (m : Heap T) : Slice * Heap T :=
  appendList s [x] m.

(** [append(s, t...)] for a slice [t] *)
Definition appendSlice (s t : Slice) (m : Heap T) : Slice * Heap T :=
  appendList s (contents m t) m.

(** Every array of [m0] is in [m], with the same cells. *)
Definition extends (m0 m : Heap T) : Prop :=
  ∀ a arr, m0 !! a = Some arr → m !! a = Some arr.

(** The slice points into an array that exists in [m]. *)
Definition allocated (m : Heap T) (s : Slice) : Prop :=
  match ptr s with
  | Some a => a < length m
  | None => True
  end.

(** [s] is nil, or lies within an array allocated after [m0]. *)
Definition owned (m0 m : Heap T) (s : Slice) : Prop :=
  (ptr s = None ∧ len s = 0 ∧ cap s = 0) ∨
  (∃ a arr, ptr s = Some a ∧ length m0 ≤ a ∧ m !! a = Some arr ∧
            off s + cap s ≤ length arr ∧ len s ≤ cap s).

(** The value of a slice as Go tells it: nil, or its elements (none, for an
    empty slice that is not nil). *)
Definition sliceValue (m : Heap T) (s : Slice) : option (list T) :=
  match ptr s with
  | Some _ => Some (contents m s)
  | None => None
  end.

End slices.

(** ** Package strings *)

(** [strings.Split(s, sep)] for a separator of one byte. *)
Fixpoint Split (s : string) (sep : Ascii.ascii) : list string :=
  match s with
  | EmptyString => [EmptyString]
  | String c rest =>
    if Ascii.eqb c sep then EmptyString :: Split rest sep
    else match Split rest sep with
         | first :: more => String c first :: more
         | [] => [String c EmptyString]
         end
  end.

Definition comma : Ascii.ascii := ","%char.

(** ** Package kops: the declarations config.go relies on *)

(** [kops.InstanceGroupRole] and [kops.CloudProviderID] are types of
    strings: config.go compares them with [==]. *)
Definition InstanceGroupRole := string.
Definition CloudProviderID := string.

(** The types of package [kops] whose declarations are not part of this
    file's source.  [HookFields], [FileAssetFields], [WarmPoolFields],
    [ClusterSpecFields] and [InstanceGroupSpecFields] stand for the fields
    of the respective struct that config.go never names. *)
Class KopsTypes := {
  HookFields : Type;
  HookFields_zero : HookFields;
  FileAssetFields : Type;
  FileAssetFields_zero : FileAssetFields;
  WarmPoolFields : Type;
  KubeletConfigSpec : Type;
  KubeletConfigSpec_zero : KubeletConfigSpec;
  VolumeMountSpec : Type;
  KubeAPIServerConfig : Type;
  CloudControllerManagerConfig : Type;
  AmazonVPCNetworkingSpec : Type;
  ContainerdConfig : Type;
  NvidiaGPUConfig : Type;
  ClusterSpecFields : Type;
  InstanceGroupSpecFields : Type;
  Architecture : Type;
  Architecture_eq_dec :: EqDecision Architecture;
  Architecture_countable :: Countable Architecture;
}.

Section nodeup.
Context `{RT : GoRuntime} `{KT : KopsTypes}.

(** [kops.HookSpec].  [Roles] is kept by value: no statement of config.go
    writes into a role array. *)
Record HookSpec := mkHookSpec {
  hook_Roles : list InstanceGroupRole;
  hook_fields : HookFields;
}.

(** [kops.FileAssetSpec] *)
Record FileAssetSpec := mkFileAssetSpec {
  fa_Roles : list InstanceGroupRole;
  fa_fields : FileAssetFields;
}.

#[export] Instance HookSpec_zero : Zero HookSpec :=
  mkHookSpec [] HookFields_zero.
#[export] Instance FileAssetSpec_zero : Zero FileAssetSpec :=
  mkFileAssetSpec [] FileAssetFields_zero.

(** [kops.WarmPoolSpec] *)
Record WarmPoolSpec := mkWarmPoolSpec {
  wp_EnableLifecycleHook : bool;
  wp_fields : WarmPoolFields;
}.

(** [kops.AWSSpec] *)
Record AWSSpec := mkAWSSpec {
  aws_WarmPool : option WarmPoolSpec;
  aws_DisableSecurityGroupIngress : option bool;
  aws_ElbSecurityGroup : option string;
  aws_NodeIPFamilies : list string;
}.

(** [kops.GCESpec] *)
Record GCESpec := mkGCESpec {
  gce_Multizone : option bool;
  gce_NodeTags : option string;
  gce_NodeInstancePrefix : option string;
}.

(** [kops.CloudProviderSpec]: the two providers config.go looks at. *)
Record CloudProviderSpec := mkCloudProviderSpec {
  cp_AWS : option AWSSpec;
  cp_GCE : option GCESpec;
}.

(** [kops.NetworkingSpec] *)
Record NetworkingSpec := mkNetworkingSpec {
  net_AmazonVPC : option AmazonVPCNetworkingSpec;
}.

(** [metav1.ObjectMeta] *)
Record ObjectMeta := mkObjectMeta {
  om_Name : string;
}.

(** [kops.ClusterSpec].  [Hooks] and [FileAssets] are slice headers into
    the store; slices that are only handed on are kept by value. *)
Record ClusterSpec := mkClusterSpec {
  cs_Hooks : Slice;
  cs_FileAssets : Slice;
  cs_ContainerRuntime : string;
  cs_CloudProvider : CloudProviderSpec;
  cs_UpdatePolicy : option string;
  cs_Networking : NetworkingSpec;
  cs_ExternalCloudControllerManager : option CloudControllerManagerConfig;
  cs_KubeAPIServer : option KubeAPIServerConfig;
  cs_fields : ClusterSpecFields;
}.

(** [kops.Cluster] *)
Record Cluster := mkCluster {
  cl_ObjectMeta : ObjectMeta;
  cl_Spec : ClusterSpec;
}.

(** [kops.InstanceGroupSpec] *)
Record InstanceGroupSpec := mkInstanceGroupSpec {
  igs_Role : InstanceGroupRole;
  igs_Hooks : Slice;
  igs_FileAssets : Slice;
  igs_SysctlParameters : list string;
  igs_VolumeMounts : list VolumeMountSpec;
  igs_UpdatePolicy : option string;
  igs_MachineType : string;
  igs_Kubelet : option KubeletConfigSpec;
  igs_fields : InstanceGroupSpecFields;
}.

(** [kops.InstanceGroup] *)
Record InstanceGroup := mkInstanceGroup {
  ig_ObjectMeta : ObjectMeta;
  ig_Spec : InstanceGroupSpec;
}.

(** The constants and methods of package [kops] that [NewConfig] calls.
    They are read-only functions of their receiver and arguments.
    [ResolveDefaults] returns the warm pool its result points to: the
    caller reads a field through that pointer. *)
Class KopsMethods := {
  CloudProviderAWS : CloudProviderID;
  UpdatePolicyAutomatic : string;
  GetCloudProvider : ClusterSpec → CloudProviderID;
  ResolveDefaults : option WarmPoolSpec → InstanceGroup → WarmPoolSpec;
  IsEnabled : WarmPoolSpec → bool;
  HasAPIServer : InstanceGroup → bool;
  IsKubernetesLT : Cluster → string → bool;
}.

(** ** Package nodeup: the types of config.go *)

(** [ConfigServerOptions] *)
Record ConfigServerOptions := mkConfigServerOptions {
  cso_Server : string;
  cso_CACertificates : string;
}.

(** [Image] *)
Record Image := mkImage {
  img_Name : string;
  img_Sources : list string;
  img_Hash : string;
}.

(** [StaticManifest] *)
Record StaticManifest := mkStaticManifest {
  sm_Key : string;
  sm_Path : string;
}.

(** [APIServerConfig] *)
Record APIServerConfig := mkAPIServerConfig {
  api_KubeAPIServer : option KubeAPIServerConfig;
  api_EncryptionConfigSecretHash : string;
  api_ServiceAccountPublicKeys : string;
}.

(** [BootConfig] *)
Record BootConfig := mkBootConfig {
  bc_CloudProvider : CloudProviderID;
  bc_ConfigBase : option string;
  bc_ConfigServer : option ConfigServerOptions;
  bc_APIServerIP : string;
  bc_InstanceGroupName : string;
  bc_InstanceGroupRole : InstanceGroupRole;
  bc_NodeupConfigHash : string;
}.

(** [Config].  The type is given once for both readings of its two slices
    of structs: [Config Slice Slice] holds slice headers, as the program
    does; [Config (list HookSpec) (list FileAssetSpec)] holds the elements
    the headers stand for (see [loadConfig]).  Nil and empty maps and
    slices are not told apart. *)
Record Config (HS FS : Type) := mkConfig {
  cfg_Assets : gmap Architecture (list string);
  cfg_Images : gmap Architecture (list Image);
  cfg_ClusterName : string;
  cfg_Channels : list string;
  cfg_ApiserverAdditionalIPs : list string;
  cfg_Packages : list string;
  cfg_EtcdManifests : list string;
  cfg_CAs : gmap string string;
  cfg_KeypairIDs : gmap string string;
  cfg_DefaultMachineType : option string;
  cfg_EnableLifecycleHook : bool;
  cfg_StaticManifests : list StaticManifest;
  cfg_KubeletConfig : KubeletConfigSpec;
  cfg_SysctlParameters : list string;
  cfg_UpdatePolicy : string;
  cfg_VolumeMounts : list VolumeMountSpec;
  cfg_FileAssets : FS;
  cfg_Hooks : list HS;
  cfg_ContainerRuntime : string;
  cfg_ContainerdConfig : option ContainerdConfig;
  cfg_APIServerConfig : option APIServerConfig;
  cfg_NvidiaGPU : option NvidiaGPUConfig;
  cfg_DisableSecurityGroupIngress : option bool;
  cfg_ElbSecurityGroup : option string;
  cfg_NodeIPFamilies : list string;
  cfg_UseInstanceIDForNodeName : bool;
  cfg_WarmPoolImages : list string;
  cfg_Multizone : option bool;
  cfg_NodeTags : option string;
  cfg_NodeInstancePrefix : option string;
}.

Arguments mkConfig {HS FS}.
Arguments cfg_Assets {HS FS} _.
Arguments cfg_Images {HS FS} _.
Arguments cfg_ClusterName {HS FS} _.
Arguments cfg_Channels {HS FS} _.
Arguments cfg_ApiserverAdditionalIPs {HS FS} _.
Arguments cfg_Packages {HS FS} _.
Arguments cfg_EtcdManifests {HS FS} _.
Arguments cfg_CAs {HS FS} _.
Arguments cfg_KeypairIDs {HS FS} _.
Arguments cfg_DefaultMachineType {HS FS} _.
Arguments cfg_EnableLifecycleHook {HS FS} _.
Arguments cfg_StaticManifests {HS FS} _.
Arguments cfg_KubeletConfig {HS FS} _.
Arguments cfg_SysctlParameters {HS FS} _.
Arguments cfg_UpdatePolicy {HS FS} _.
Arguments cfg_VolumeMounts {HS FS} _.
Arguments cfg_FileAssets {HS FS} _.
Arguments cfg_Hooks {HS FS} _.
Arguments cfg_ContainerRuntime {HS FS} _.
Arguments cfg_ContainerdConfig {HS FS} _.
Arguments cfg_APIServerConfig {HS FS} _.
Arguments cfg_NvidiaGPU {HS FS} _.
Arguments cfg_DisableSecurityGroupIngress {HS FS} _.
Arguments cfg_ElbSecurityGroup {HS FS} _.
Arguments cfg_NodeIPFamilies {HS FS} _.
Arguments cfg_UseInstanceIDForNodeName {HS FS} _.
Arguments cfg_WarmPoolImages {HS FS} _.
Arguments cfg_Multizone {HS FS} _.
Arguments cfg_NodeTags {HS FS} _.
Arguments cfg_NodeInstancePrefix {HS FS} _.

(** Assignments [config.F = v] to the fields that [NewConfig] sets after
    the composite literal. *)
Definition set_EnableLifecycleHook {HS FS : Type} (v : bool) (c : Config HS FS) : Config HS FS :=
  {| cfg_Assets := cfg_Assets c; cfg_Images := cfg_Images c;
     cfg_ClusterName := cfg_ClusterName c; cfg_Channels := cfg_Channels c;
     cfg_ApiserverAdditionalIPs := cfg_ApiserverAdditionalIPs c;
     cfg_Packages := cfg_Packages c;
     cfg_EtcdManifests := cfg_EtcdManifests c; cfg_CAs := cfg_CAs c;
     cfg_KeypairIDs := cfg_KeypairIDs c;
     cfg_DefaultMachineType := cfg_DefaultMachineType c;
     cfg_EnableLifecycleHook := v;
     cfg_StaticManifests := cfg_StaticManifests c;
     cfg_KubeletConfig := cfg_KubeletConfig c;
     cfg_SysctlParameters := cfg_SysctlParameters c;
     cfg_UpdatePolicy := cfg_UpdatePolicy c;
     cfg_VolumeMounts := cfg_VolumeMounts c;
     cfg_FileAssets := cfg_FileAssets c; cfg_Hooks := cfg_Hooks c;
     cfg_ContainerRuntime := cfg_ContainerRuntime c;
     cfg_ContainerdConfig := cfg_ContainerdConfig c;
     cfg_APIServerConfig := cfg_APIServerConfig c;
     cfg_NvidiaGPU := cfg_NvidiaGPU c;
     cfg_DisableSecurityGroupIngress := cfg_DisableSecurityGroupIngress c;
     cfg_ElbSecurityGroup := cfg_ElbSecurityGroup c;
     cfg_NodeIPFamilies := cfg_NodeIPFamilies c;
     cfg_UseInstanceIDForNodeName := cfg_UseInstanceIDForNodeName c;
     cfg_WarmPoolImages := cfg_WarmPoolImages c;
     cfg_Multizone := cfg_Multizone c; cfg_NodeTags := cfg_NodeTags c;
     cfg_NodeInstancePrefix := cfg_NodeInstancePrefix c |}.

Definition set_DisableSecurityGroupIngress {HS FS : Type} (v : option bool) (c : Config HS FS) : Config HS FS :=
  {| cfg_Assets := cfg_Assets c; cfg_Images := cfg_Images c;
     cfg_ClusterName := cfg_ClusterName c; cfg_Channels := cfg_Channels c;
     cfg_ApiserverAdditionalIPs := cfg_ApiserverAdditionalIPs c;
     cfg_Packages := cfg_Packages c;
     cfg_EtcdManifests := cfg_EtcdManifests c; cfg_CAs := cfg_CAs c;
     cfg_KeypairIDs := cfg_KeypairIDs c;
     cfg_DefaultMachineType := cfg_DefaultMachineType c;
     cfg_EnableLifecycleHook := cfg_EnableLifecycleHook c;
     cfg_StaticManifests := cfg_StaticManifests c;
     cfg_KubeletConfig := cfg_KubeletConfig c;
     cfg_SysctlParameters := cfg_SysctlParameters c;
     cfg_UpdatePolicy := cfg_UpdatePolicy c;
     cfg_VolumeMounts := cfg_VolumeMounts c;
     cfg_FileAssets := cfg_FileAssets c; cfg_Hooks := cfg_Hooks c;
     cfg_ContainerRuntime := cfg_ContainerRuntime c;
     cfg_ContainerdConfig := cfg_ContainerdConfig c;
     cfg_APIServerConfig := cfg_APIServerConfig c;
     cfg_NvidiaGPU := cfg_NvidiaGPU c; cfg_DisableSecurityGroupIngress := v;
     cfg_ElbSecurityGroup := cfg_ElbSecurityGroup c;
     cfg_NodeIPFamilies := cfg_NodeIPFamilies c;
     cfg_UseInstanceIDForNodeName := cfg_UseInstanceIDForNodeName c;
     cfg_WarmPoolImages := cfg_WarmPoolImages c;
     cfg_Multizone := cfg_Multizone c; cfg_NodeTags := cfg_NodeTags c;
     cfg_NodeInstancePrefix := cfg_NodeInstancePrefix c |}.

Definition set_ElbSecurityGroup {HS FS : Type} (v : option string) (c : Config HS FS) : Config HS FS :=
  {| cfg_Assets := cfg_Assets c; cfg_Images := cfg_Images c;
     cfg_ClusterName := cfg_ClusterName c; cfg_Channels := cfg_Channels c;
     cfg_ApiserverAdditionalIPs := cfg_ApiserverAdditionalIPs c;
     cfg_Packages := cfg_Packages c;
     cfg_EtcdManifests := cfg_EtcdManifests c; cfg_CAs := cfg_CAs c;
     cfg_KeypairIDs := cfg_KeypairIDs c;
     cfg_DefaultMachineType := cfg_DefaultMachineType c;
     cfg_EnableLifecycleHook := cfg_EnableLifecycleHook c;
     cfg_StaticManifests := cfg_StaticManifests c;
     cfg_KubeletConfig := cfg_KubeletConfig c;
     cfg_SysctlParameters := cfg_SysctlParameters c;
     cfg_UpdatePolicy := cfg_UpdatePolicy c;
     cfg_VolumeMounts := cfg_VolumeMounts c;
     cfg_FileAssets := cfg_FileAssets c; cfg_Hooks := cfg_Hooks c;
     cfg_ContainerRuntime := cfg_ContainerRuntime c;
     cfg_ContainerdConfig := cfg_ContainerdConfig c;
     cfg_APIServerConfig := cfg_APIServerConfig c;
     cfg_NvidiaGPU := cfg_NvidiaGPU c;
     cfg_DisableSecurityGroupIngress := cfg_DisableSecurityGroupIngress c;
     cfg_ElbSecurityGroup := v; cfg_NodeIPFamilies := cfg_NodeIPFamilies c;
     cfg_UseInstanceIDForNodeName := cfg_UseInstanceIDForNodeName c;
     cfg_WarmPoolImages := cfg_WarmPoolImages c;
     cfg_Multizone := cfg_Multizone c; cfg_NodeTags := cfg_NodeTags c;
     cfg_NodeInstancePrefix := cfg_NodeInstancePrefix c |}.

Definition set_NodeIPFamilies {HS FS : Type} (v : list string) (c : Config HS FS) : Config HS FS :=
  {| cfg_Assets := cfg_Assets c; cfg_Images := cfg_Images c;
     cfg_ClusterName := cfg_ClusterName c; cfg_Channels := cfg_Channels c;
     cfg_ApiserverAdditionalIPs := cfg_ApiserverAdditionalIPs c;
     cfg_Packages := cfg_Packages c;
     cfg_EtcdManifests := cfg_EtcdManifests c; cfg_CAs := cfg_CAs c;
     cfg_KeypairIDs := cfg_KeypairIDs c;
     cfg_DefaultMachineType := cfg_DefaultMachineType c;
     cfg_EnableLifecycleHook := cfg_EnableLifecycleHook c;
     cfg_StaticManifests := cfg_StaticManifests c;
     cfg_KubeletConfig := cfg_KubeletConfig c;
     cfg_SysctlParameters := cfg_SysctlParameters c;
     cfg_UpdatePolicy := cfg_UpdatePolicy c;
     cfg_VolumeMounts := cfg_VolumeMounts c;
     cfg_FileAssets := cfg_FileAssets c; cfg_Hooks := cfg_Hooks c;
     cfg_ContainerRuntime := cfg_ContainerRuntime c;
     cfg_ContainerdConfig := cfg_ContainerdConfig c;
     cfg_APIServerConfig := cfg_APIServerConfig c;
     cfg_NvidiaGPU := cfg_NvidiaGPU c;
     cfg_DisableSecurityGroupIngress := cfg_DisableSecurityGroupIngress c;
     cfg_ElbSecurityGroup := cfg_ElbSecurityGroup c;
     cfg_NodeIPFamilies := v;
     cfg_UseInstanceIDForNodeName := cfg_UseInstanceIDForNodeName c;
     cfg_WarmPoolImages := cfg_WarmPoolImages c;
     cfg_Multizone := cfg_Multizone c; cfg_NodeTags := cfg_NodeTags c;
     cfg_NodeInstancePrefix := cfg_NodeInstancePrefix c |}.

Definition set_Multizone {HS FS : Type} (v : option bool) (c : Config HS FS) : Config HS FS :=
  {| cfg_Assets := cfg_Assets c; cfg_Images := cfg_Images c;
     cfg_ClusterName := cfg_ClusterName c; cfg_Channels := cfg_Channels c;
     cfg_ApiserverAdditionalIPs := cfg_ApiserverAdditionalIPs c;
     cfg_Packages := cfg_Packages c;
     cfg_EtcdManifests := cfg_EtcdManifests c; cfg_CAs := cfg_CAs c;
     cfg_KeypairIDs := cfg_KeypairIDs c;
     cfg_DefaultMachineType := cfg_DefaultMachineType c;
     cfg_EnableLifecycleHook := cfg_EnableLifecycleHook c;
     cfg_StaticManifests := cfg_StaticManifests c;
     cfg_KubeletConfig := cfg_KubeletConfig c;
     cfg_SysctlParameters := cfg_SysctlParameters c;
     cfg_UpdatePolicy := cfg_UpdatePolicy c;
     cfg_VolumeMounts := cfg_VolumeMounts c;
     cfg_FileAssets := cfg_FileAssets c; cfg_Hooks := cfg_Hooks c;
     cfg_ContainerRuntime := cfg_ContainerRuntime c;
     cfg_ContainerdConfig := cfg_ContainerdConfig c;
     cfg_APIServerConfig := cfg_APIServerConfig c;
     cfg_NvidiaGPU := cfg_NvidiaGPU c;
     cfg_DisableSecurityGroupIngress := cfg_DisableSecurityGroupIngress c;
     cfg_ElbSecurityGroup := cfg_ElbSecurityGroup c;
     cfg_NodeIPFamilies := cfg_NodeIPFamilies c;
     cfg_UseInstanceIDForNodeName := cfg_UseInstanceIDForNodeName c;
     cfg_WarmPoolImages := cfg_WarmPoolImages c; cfg_Multizone := v;
     cfg_NodeTags := cfg_NodeTags c;
     cfg_NodeInstancePrefix := cfg_NodeInstancePrefix c |}.

Definition set_NodeTags {HS FS : Type} (v : option string) (c : Config HS FS) : Config HS FS :=
  {| cfg_Assets := cfg_Assets c; cfg_Images := cfg_Images c;
     cfg_ClusterName := cfg_ClusterName c; cfg_Channels := cfg_Channels c;
     cfg_ApiserverAdditionalIPs := cfg_ApiserverAdditionalIPs c;
     cfg_Packages := cfg_Packages c;
     cfg_EtcdManifests := cfg_EtcdManifests c; cfg_CAs := cfg_CAs c;
     cfg_KeypairIDs := cfg_KeypairIDs c;
     cfg_DefaultMachineType := cfg_DefaultMachineType c;
     cfg_EnableLifecycleHook := cfg_EnableLifecycleHook c;
     cfg_StaticManifests := cfg_StaticManifests c;
     cfg_KubeletConfig := cfg_KubeletConfig c;
     cfg_SysctlParameters := cfg_SysctlParameters c;
     cfg_UpdatePolicy := cfg_UpdatePolicy c;
     cfg_VolumeMounts := cfg_VolumeMounts c;
     cfg_FileAssets := cfg_FileAssets c; cfg_Hooks := cfg_Hooks c;
     cfg_ContainerRuntime := cfg_ContainerRuntime c;
     cfg_ContainerdConfig := cfg_ContainerdConfig c;
     cfg_APIServerConfig := cfg_APIServerConfig c;
     cfg_NvidiaGPU := cfg_NvidiaGPU c;
     cfg_DisableSecurityGroupIngress := cfg_DisableSecurityGroupIngress c;
     cfg_ElbSecurityGroup := cfg_ElbSecurityGroup c;
     cfg_NodeIPFamilies := cfg_NodeIPFamilies c;
     cfg_UseInstanceIDForNodeName := cfg_UseInstanceIDForNodeName c;
     cfg_WarmPoolImages := cfg_WarmPoolImages c;
     cfg_Multizone := cfg_Multizone c; cfg_NodeTags := v;
     cfg_NodeInstancePrefix := cfg_NodeInstancePrefix c |}.

Definition set_NodeInstancePrefix {HS FS : Type} (v : option string) (c : Config HS FS) : Config HS FS :=
  {| cfg_Assets := cfg_Assets c; cfg_Images := cfg_Images c;
     cfg_ClusterName := cfg_ClusterName c; cfg_Channels := cfg_Channels c;
     cfg_ApiserverAdditionalIPs := cfg_ApiserverAdditionalIPs c;
     cfg_Packages := cfg_Packages c;
     cfg_EtcdManifests := cfg_EtcdManifests c; cfg_CAs := cfg_CAs c;
     cfg_KeypairIDs := cfg_KeypairIDs c;
     cfg_DefaultMachineType := cfg_DefaultMachineType c;
     cfg_EnableLifecycleHook := cfg_EnableLifecycleHook c;
     cfg_StaticManifests := cfg_StaticManifests c;
     cfg_KubeletConfig := cfg_KubeletConfig c;
     cfg_SysctlParameters := cfg_SysctlParameters c;
     cfg_UpdatePolicy := cfg_UpdatePolicy c;
     cfg_VolumeMounts := cfg_VolumeMounts c;
     cfg_FileAssets := cfg_FileAssets c; cfg_Hooks := cfg_Hooks c;
     cfg_ContainerRuntime := cfg_ContainerRuntime c;
     cfg_ContainerdConfig := cfg_ContainerdConfig c;
     cfg_APIServerConfig := cfg_APIServerConfig c;
     cfg_NvidiaGPU := cfg_NvidiaGPU c;
     cfg_DisableSecurityGroupIngress := cfg_DisableSecurityGroupIngress c;
     cfg_ElbSecurityGroup := cfg_ElbSecurityGroup c;
     cfg_NodeIPFamilies := cfg_NodeIPFamilies c;
     cfg_UseInstanceIDForNodeName := cfg_UseInstanceIDForNodeName c;
     cfg_WarmPoolImages := cfg_WarmPoolImages c;
     cfg_Multizone := cfg_Multizone c; cfg_NodeTags := cfg_NodeTags c;
     cfg_NodeInstancePrefix := v |}.

Definition set_UpdatePolicy {HS FS : Type} (v : string) (c : Config HS FS) : Config HS FS :=
  {| cfg_Assets := cfg_Assets c; cfg_Images := cfg_Images c;
     cfg_ClusterName := cfg_ClusterName c; cfg_Channels := cfg_Channels c;
     cfg_ApiserverAdditionalIPs := cfg_ApiserverAdditionalIPs c;
     cfg_Packages := cfg_Packages c;
     cfg_EtcdManifests := cfg_EtcdManifests c; cfg_CAs := cfg_CAs c;
     cfg_KeypairIDs := cfg_KeypairIDs c;
     cfg_DefaultMachineType := cfg_DefaultMachineType c;
     cfg_EnableLifecycleHook := cfg_EnableLifecycleHook c;
     cfg_StaticManifests := cfg_StaticManifests c;
     cfg_KubeletConfig := cfg_KubeletConfig c;
     cfg_SysctlParameters := cfg_SysctlParameters c; cfg_UpdatePolicy := v;
     cfg_VolumeMounts := cfg_VolumeMounts c;
     cfg_FileAssets := cfg_FileAssets c; cfg_Hooks := cfg_Hooks c;
     cfg_ContainerRuntime := cfg_ContainerRuntime c;
     cfg_ContainerdConfig := cfg_ContainerdConfig c;
     cfg_APIServerConfig := cfg_APIServerConfig c;
     cfg_NvidiaGPU := cfg_NvidiaGPU c;
     cfg_DisableSecurityGroupIngress := cfg_DisableSecurityGroupIngress c;
     cfg_ElbSecurityGroup := cfg_ElbSecurityGroup c;
     cfg_NodeIPFamilies := cfg_NodeIPFamilies c;
     cfg_UseInstanceIDForNodeName := cfg_UseInstanceIDForNodeName c;
     cfg_WarmPoolImages := cfg_WarmPoolImages c;
     cfg_Multizone := cfg_Multizone c; cfg_NodeTags := cfg_NodeTags c;
     cfg_NodeInstancePrefix := cfg_NodeInstancePrefix c |}.

Definition set_DefaultMachineType {HS FS : Type} (v : option string) (c : Config HS FS) : Config HS FS :=
  {| cfg_Assets := cfg_Assets c; cfg_Images := cfg_Images c;
     cfg_ClusterName := cfg_ClusterName c; cfg_Channels := cfg_Channels c;
     cfg_ApiserverAdditionalIPs := cfg_ApiserverAdditionalIPs c;
     cfg_Packages := cfg_Packages c;
     cfg_EtcdManifests := cfg_EtcdManifests c; cfg_CAs := cfg_CAs c;
     cfg_KeypairIDs := cfg_KeypairIDs c; cfg_DefaultMachineType := v;
     cfg_EnableLifecycleHook := cfg_EnableLifecycleHook c;
     cfg_StaticManifests := cfg_StaticManifests c;
     cfg_KubeletConfig := cfg_KubeletConfig c;
     cfg_SysctlParameters := cfg_SysctlParameters c;
     cfg_UpdatePolicy := cfg_UpdatePolicy c;
     cfg_VolumeMounts := cfg_VolumeMounts c;
     cfg_FileAssets := cfg_FileAssets c; cfg_Hooks := cfg_Hooks c;
     cfg_ContainerRuntime := cfg_ContainerRuntime c;
     cfg_ContainerdConfig := cfg_ContainerdConfig c;
     cfg_APIServerConfig := cfg_APIServerConfig c;
     cfg_NvidiaGPU := cfg_NvidiaGPU c;
     cfg_DisableSecurityGroupIngress := cfg_DisableSecurityGroupIngress c;
     cfg_ElbSecurityGroup := cfg_ElbSecurityGroup c;
     cfg_NodeIPFamilies := cfg_NodeIPFamilies c;
     cfg_UseInstanceIDForNodeName := cfg_UseInstanceIDForNodeName c;
     cfg_WarmPoolImages := cfg_WarmPoolImages c;
     cfg_Multizone := cfg_Multizone c; cfg_NodeTags := cfg_NodeTags c;
     cfg_NodeInstancePrefix := cfg_NodeInstancePrefix c |}.

Definition set_UseInstanceIDForNodeName {HS FS : Type} (v : bool) (c : Config HS FS) : Config HS FS :=
  {| cfg_Assets := cfg_Assets c; cfg_Images := cfg_Images c;
     cfg_ClusterName := cfg_ClusterName c; cfg_Channels := cfg_Channels c;
     cfg_ApiserverAdditionalIPs := cfg_ApiserverAdditionalIPs c;
     cfg_Packages := cfg_Packages c;
     cfg_EtcdManifests := cfg_EtcdManifests c; cfg_CAs := cfg_CAs c;
     cfg_KeypairIDs := cfg_KeypairIDs c;
     cfg_DefaultMachineType := cfg_DefaultMachineType c;
     cfg_EnableLifecycleHook := cfg_EnableLifecycleHook c;
     cfg_StaticManifests := cfg_StaticManifests c;
     cfg_KubeletConfig := cfg_KubeletConfig c;
     cfg_SysctlParameters := cfg_SysctlParameters c;
     cfg_UpdatePolicy := cfg_UpdatePolicy c;
     cfg_VolumeMounts := cfg_VolumeMounts c;
     cfg_FileAssets := cfg_FileAssets c; cfg_Hooks := cfg_Hooks c;
     cfg_ContainerRuntime := cfg_ContainerRuntime c;
     cfg_ContainerdConfig := cfg_ContainerdConfig c;
     cfg_APIServerConfig := cfg_APIServerConfig c;
     cfg_NvidiaGPU := cfg_NvidiaGPU c;
     cfg_DisableSecurityGroupIngress := cfg_DisableSecurityGroupIngress c;
     cfg_ElbSecurityGroup := cfg_ElbSecurityGroup c;
     cfg_NodeIPFamilies := cfg_NodeIPFamilies c;
     cfg_UseInstanceIDForNodeName := v;
     cfg_WarmPoolImages := cfg_WarmPoolImages c;
     cfg_Multizone := cfg_Multizone c; cfg_NodeTags := cfg_NodeTags c;
     cfg_NodeInstancePrefix := cfg_NodeInstancePrefix c |}.

Definition set_KubeletConfig {HS FS : Type} (v : KubeletConfigSpec) (c : Config HS FS) : Config HS FS :=
  {| cfg_Assets := cfg_Assets c; cfg_Images := cfg_Images c;
     cfg_ClusterName := cfg_ClusterName c; cfg_Channels := cfg_Channels c;
     cfg_ApiserverAdditionalIPs := cfg_ApiserverAdditionalIPs c;
     cfg_Packages := cfg_Packages c;
     cfg_EtcdManifests := cfg_EtcdManifests c; cfg_CAs := cfg_CAs c;
     cfg_KeypairIDs := cfg_KeypairIDs c;
     cfg_DefaultMachineType := cfg_DefaultMachineType c;
     cfg_EnableLifecycleHook := cfg_EnableLifecycleHook c;
     cfg_StaticManifests := cfg_StaticManifests c; cfg_KubeletConfig := v;
     cfg_SysctlParameters := cfg_SysctlParameters c;
     cfg_UpdatePolicy := cfg_UpdatePolicy c;
     cfg_VolumeMounts := cfg_VolumeMounts c;
     cfg_FileAssets := cfg_FileAssets c; cfg_Hooks := cfg_Hooks c;
     cfg_ContainerRuntime := cfg_ContainerRuntime c;
     cfg_ContainerdConfig := cfg_ContainerdConfig c;
     cfg_APIServerConfig := cfg_APIServerConfig c;
     cfg_NvidiaGPU := cfg_NvidiaGPU c;
     cfg_DisableSecurityGroupIngress := cfg_DisableSecurityGroupIngress c;
     cfg_ElbSecurityGroup := cfg_ElbSecurityGroup c;
     cfg_NodeIPFamilies := cfg_NodeIPFamilies c;
     cfg_UseInstanceIDForNodeName := cfg_UseInstanceIDForNodeName c;
     cfg_WarmPoolImages := cfg_WarmPoolImages c;
     cfg_Multizone := cfg_Multizone c; cfg_NodeTags := cfg_NodeTags c;
     cfg_NodeInstancePrefix := cfg_NodeInstancePrefix c |}.

Definition set_APIServerConfig {HS FS : Type} (v : option APIServerConfig) (c : Config HS FS) : Config HS FS :=
  {| cfg_Assets := cfg_Assets c; cfg_Images := cfg_Images c;
     cfg_ClusterName := cfg_ClusterName c; cfg_Channels := cfg_Channels c;
     cfg_ApiserverAdditionalIPs := cfg_ApiserverAdditionalIPs c;
     cfg_Packages := cfg_Packages c;
     cfg_EtcdManifests := cfg_EtcdManifests c; cfg_CAs := cfg_CAs c;
     cfg_KeypairIDs := cfg_KeypairIDs c;
     cfg_DefaultMachineType := cfg_DefaultMachineType c;
     cfg_EnableLifecycleHook := cfg_EnableLifecycleHook c;
     cfg_StaticManifests := cfg_StaticManifests c;
     cfg_KubeletConfig := cfg_KubeletConfig c;
     cfg_SysctlParameters := cfg_SysctlParameters c;
     cfg_UpdatePolicy := cfg_UpdatePolicy c;
     cfg_VolumeMounts := cfg_VolumeMounts c;
     cfg_FileAssets := cfg_FileAssets c; cfg_Hooks := cfg_Hooks c;
     cfg_ContainerRuntime := cfg_ContainerRuntime c;
     cfg_ContainerdConfig := cfg_ContainerdConfig c;
     cfg_APIServerConfig := v; cfg_NvidiaGPU := cfg_NvidiaGPU c;
     cfg_DisableSecurityGroupIngress := cfg_DisableSecurityGroupIngress c;
     cfg_ElbSecurityGroup := cfg_ElbSecurityGroup c;
     cfg_NodeIPFamilies := cfg_NodeIPFamilies c;
     cfg_UseInstanceIDForNodeName := cfg_UseInstanceIDForNodeName c;
     cfg_WarmPoolImages := cfg_WarmPoolImages c;
     cfg_Multizone := cfg_Multizone c; cfg_NodeTags := cfg_NodeTags c;
     cfg_NodeInstancePrefix := cfg_NodeInstancePrefix c |}.

(** ** Package nodeup: the functions of config.go *)

Context {KM : KopsMethods}.

(** The two stores [NewConfig] allocates in. *)
Record Mem := mkMem {
  hookArrays : Heap HookSpec;
  fileAssetArrays : Heap FileAssetSpec;
}.

(** [containsRole] *)
Fixpoint containsRole (v : InstanceGroupRole) (list : list InstanceGroupRole) : bool :=
  match list with
  | [] => false
  | x :: rest => if String.eqb v x then true else containsRole v rest
  end.

(** The loop of [filterFileAssets]: [for _, fileAsset := range f], over the
    indices still to visit.  [fileAsset] is a copy of [f[i]]. *)
Fixpoint filterFileAssets_range (f : Slice) (role : InstanceGroupRole)
    (indices : list nat) (fileAssets : Slice) (m : Heap FileAssetSpec)
    : Slice * Heap FileAssetSpec :=
  match indices with
  | [] => (fileAssets, m)
  | i :: indices =>
    let fileAsset := index m f i in
    if (0 <? length (fa_Roles fileAsset)) && negb (containsRole role (fa_Roles fileAsset))
    then filterFileAssets_range f role indices fileAssets m
    else
      let fileAsset := mkFileAssetSpec [] (fa_fields fileAsset) in
      let '(fileAssets, m) := append fileAssets fileAsset m in
      filterFileAssets_range f role indices fileAssets m
  end.

(** [filterFileAssets] *)
Definition filterFileAssets (f : Slice) (role : InstanceGroupRole)
    (m : Heap FileAssetSpec) : Slice * Heap FileAssetSpec :=
  filterFileAssets_range f role (seq 0 (len f)) nilSlice m.

(** The loop of [filterHooks]: [for _, hook := range h]. *)
Fixpoint filterHooks_range (h : Slice) (role : InstanceGroupRole)
    (indices : list nat) (hooks : Slice) (m : Heap HookSpec)
    : Slice * Heap HookSpec :=
  match indices with
  | [] => (hooks, m)
  | i :: indices =>
    let hook := index m h i in
    if (0 <? length (hook_Roles hook)) && negb (containsRole role (hook_Roles hook))
    then filterHooks_range h role indices hooks m
    else
      let hook := mkHookSpec [] (hook_fields hook) in
      let '(hooks, m) := append hooks hook m in
      filterHooks_range h role indices hooks m
  end.

(** [filterHooks] *)
Definition filterHooks (h : Slice) (role : InstanceGroupRole)
    (m : Heap HookSpec) : Slice * Heap HookSpec :=
  filterHooks_range h role (seq 0 (len h)) nilSlice m.

(** [UsesInstanceIDForNodeName] *)
Definition UsesInstanceIDForNodeName (cluster : Cluster) : bool :=
  bool_decide (cs_ExternalCloudControllerManager (cl_Spec cluster) ≠ None)
  && String.eqb (GetCloudProvider (cl_Spec cluster)) CloudProviderAWS.

(** [NewConfig].  The result is the pair of structs the two returned
    pointers refer to, with the store as [NewConfig] leaves it. *)
Definition NewConfig (cluster : Cluster) (instanceGroup : InstanceGroup) (m : Mem)
    : Config Slice Slice * BootConfig * Mem :=
  let role := igs_Role (ig_Spec instanceGroup) in

  let '(clusterHooks, hm) :=
    filterHooks (cs_Hooks (cl_Spec cluster)) (igs_Role (ig_Spec instanceGroup)) (hookArrays m) in
  let '(igHooks, hm) :=
    filterHooks (igs_Hooks (ig_Spec instanceGroup)) (igs_Role (ig_Spec instanceGroup)) hm in

  let '(igFileAssets, fm) :=
    filterFileAssets (igs_FileAssets (ig_Spec instanceGroup)) role (fileAssetArrays m) in
  let '(clusterFileAssets, fm) :=
    filterFileAssets (cs_FileAssets (cl_Spec cluster)) role fm in
  let '(fileAssets, fm) := appendSlice igFileAssets clusterFileAssets fm in
  let config : Config Slice Slice :=
    {| cfg_Assets := ∅;
       cfg_Images := ∅;
       cfg_ClusterName := om_Name (cl_ObjectMeta cluster);
       cfg_Channels := [];
       cfg_ApiserverAdditionalIPs := [];
       cfg_Packages := [];
       cfg_EtcdManifests := [];
       cfg_CAs := ∅;
       cfg_KeypairIDs := ∅;
       cfg_DefaultMachineType := None;
       cfg_EnableLifecycleHook := false;
       cfg_StaticManifests := [];
       cfg_KubeletConfig := KubeletConfigSpec_zero;
       cfg_SysctlParameters := igs_SysctlParameters (ig_Spec instanceGroup);
       cfg_UpdatePolicy := EmptyString;
       cfg_VolumeMounts := igs_VolumeMounts (ig_Spec instanceGroup);
       cfg_FileAssets := fileAssets;
       cfg_Hooks := [igHooks; clusterHooks];
       cfg_ContainerRuntime := cs_ContainerRuntime (cl_Spec cluster);
       cfg_ContainerdConfig := None;
       cfg_APIServerConfig := None;
       cfg_NvidiaGPU := None;
       cfg_DisableSecurityGroupIngress := None;
       cfg_ElbSecurityGroup := None;
       cfg_NodeIPFamilies := [];
       cfg_UseInstanceIDForNodeName := false;
       cfg_WarmPoolImages := [];
       cfg_Multizone := None;
       cfg_NodeTags := None;
       cfg_NodeInstancePrefix := None |} in

  let bootConfig :=
    {| bc_CloudProvider := GetCloudProvider (cl_Spec cluster);
       bc_ConfigBase := None;
       bc_ConfigServer := None;
       bc_APIServerIP := EmptyString;
       bc_InstanceGroupName := om_Name (ig_ObjectMeta instanceGroup);
       bc_InstanceGroupRole := role;
       bc_NodeupConfigHash := EmptyString |} in

  let config :=
    match cp_AWS (cs_CloudProvider (cl_Spec cluster)) with
    | Some aws =>
      let warmPool := ResolveDefaults (aws_WarmPool aws) instanceGroup in
      let config :=
        if IsEnabled warmPool && wp_EnableLifecycleHook warmPool
        then set_EnableLifecycleHook true config
        else config in
      if HasAPIServer instanceGroup || IsKubernetesLT cluster "1.24"
      then set_NodeIPFamilies (aws_NodeIPFamilies aws)
             (set_ElbSecurityGroup (aws_ElbSecurityGroup aws)
                (set_DisableSecurityGroupIngress (aws_DisableSecurityGroupIngress aws) config))
      else config
    | None => config
    end in

  let config :=
    match cp_GCE (cs_CloudProvider (cl_Spec cluster)) with
    | Some gce =>
      set_NodeInstancePrefix (gce_NodeInstancePrefix gce)
        (set_NodeTags (gce_NodeTags gce)
           (set_Multizone (gce_Multizone gce) config))
    | None => config
    end in

  let config :=
    match igs_UpdatePolicy (ig_Spec instanceGroup) with
    | Some policy => set_UpdatePolicy policy config
    | None =>
      match cs_UpdatePolicy (cl_Spec cluster) with
      | Some policy => set_UpdatePolicy policy config
      | None => set_UpdatePolicy UpdatePolicyAutomatic config
      end
    end in

  let config :=
    match net_AmazonVPC (cs_Networking (cl_Spec cluster)) with
    | Some _ =>
      set_DefaultMachineType
        (Some (nth 0 (Split (igs_MachineType (ig_Spec instanceGroup)) comma) EmptyString)) config
    | None => config
    end in

  let config :=
    if UsesInstanceIDForNodeName cluster
    then set_UseInstanceIDForNodeName true config
    else config in

  let config :=
    match igs_Kubelet (ig_Spec instanceGroup) with
    | Some kubelet => set_KubeletConfig kubelet config
    | None => config
    end in

  let config :=
    if HasAPIServer instanceGroup
    then set_APIServerConfig
           (Some {| api_KubeAPIServer := cs_KubeAPIServer (cl_Spec cluster);
                    api_EncryptionConfigSecretHash := EmptyString;
                    api_ServiceAccountPublicKeys := EmptyString |}) config
    else config in

  (config, bootConfig, mkMem hm fm).

(** The [Config] value behind a [Config] of slice headers: every header is
    replaced by the elements it stands for in [m]. *)
Definition loadConfig (m : Mem) (c : Config Slice Slice)
    : Config (list HookSpec) (list FileAssetSpec) :=
  {| cfg_Assets := cfg_Assets c;
     cfg_Images := cfg_Images c;
     cfg_ClusterName := cfg_ClusterName c;
     cfg_Channels := cfg_Channels c;
     cfg_ApiserverAdditionalIPs := cfg_ApiserverAdditionalIPs c;
     cfg_Packages := cfg_Packages c;
     cfg_EtcdManifests := cfg_EtcdManifests c;
     cfg_CAs := cfg_CAs c;
     cfg_KeypairIDs := cfg_KeypairIDs c;
     cfg_DefaultMachineType := cfg_DefaultMachineType c;
     cfg_EnableLifecycleHook := cfg_EnableLifecycleHook c;
     cfg_StaticManifests := cfg_StaticManifests c;
     cfg_KubeletConfig := cfg_KubeletConfig c;
     cfg_SysctlParameters := cfg_SysctlParameters c;
     cfg_UpdatePolicy := cfg_UpdatePolicy c;
     cfg_VolumeMounts := cfg_VolumeMounts c;
     cfg_FileAssets := contents (fileAssetArrays m) (cfg_FileAssets c);
     cfg_Hooks := contents (hookArrays m) <$> cfg_Hooks c;
     cfg_ContainerRuntime := cfg_ContainerRuntime c;
     cfg_ContainerdConfig := cfg_ContainerdConfig c;
     cfg_APIServerConfig := cfg_APIServerConfig c;
     cfg_NvidiaGPU := cfg_NvidiaGPU c;
     cfg_DisableSecurityGroupIngress := cfg_DisableSecurityGroupIngress c;
     cfg_ElbSecurityGroup := cfg_ElbSecurityGroup c;
     cfg_NodeIPFamilies := cfg_NodeIPFamilies c;
     cfg_UseInstanceIDForNodeName := cfg_UseInstanceIDForNodeName c;
     cfg_WarmPoolImages := cfg_WarmPoolImages c;
     cfg_Multizone := cfg_Multizone c;
     cfg_NodeTags := cfg_NodeTags c;
     cfg_NodeInstancePrefix := cfg_NodeInstancePrefix c |}.

(** The [Config] value with nil slices told apart from empty ones: every
    header is replaced by the value of its slice, as [sliceValue] gives it.
    An encoder that writes nil and empty slices differently, as
    encoding/json does for [Hooks], is a function of this value. *)
Definition configValue (m : Mem) (c : Config Slice Slice)
    : Config (option (list HookSpec)) (option (list FileAssetSpec)) :=
  {| cfg_Assets := cfg_Assets c;
     cfg_Images := cfg_Images c;
     cfg_ClusterName := cfg_ClusterName c;
     cfg_Channels := cfg_Channels c;
     cfg_ApiserverAdditionalIPs := cfg_ApiserverAdditionalIPs c;
     cfg_Packages := cfg_Packages c;
     cfg_EtcdManifests := cfg_EtcdManifests c;
     cfg_CAs := cfg_CAs c;
     cfg_KeypairIDs := cfg_KeypairIDs c;
     cfg_DefaultMachineType := cfg_DefaultMachineType c;
     cfg_EnableLifecycleHook := cfg_EnableLifecycleHook c;
     cfg_StaticManifests := cfg_StaticManifests c;
     cfg_KubeletConfig := cfg_KubeletConfig c;
     cfg_SysctlParameters := cfg_SysctlParameters c;
     cfg_UpdatePolicy := cfg_UpdatePolicy c;
     cfg_VolumeMounts := cfg_VolumeMounts c;
     cfg_FileAssets := sliceValue (fileAssetArrays m) (cfg_FileAssets c);
     cfg_Hooks := sliceValue (hookArrays m) <$> cfg_Hooks c;
     cfg_ContainerRuntime := cfg_ContainerRuntime c;
     cfg_ContainerdConfig := cfg_ContainerdConfig c;
     cfg_APIServerConfig := cfg_APIServerConfig c;
     cfg_NvidiaGPU := cfg_NvidiaGPU c;
     cfg_DisableSecurityGroupIngress := cfg_DisableSecurityGroupIngress c;
     cfg_ElbSecurityGroup := cfg_ElbSecurityGroup c;
     cfg_NodeIPFamilies := cfg_NodeIPFamilies c;
     cfg_UseInstanceIDForNodeName := cfg_UseInstanceIDForNodeName c;
     cfg_WarmPoolImages := cfg_WarmPoolImages c;
     cfg_Multizone := cfg_Multizone c;
     cfg_NodeTags := cfg_NodeTags c;
     cfg_NodeInstancePrefix := cfg_NodeInstancePrefix c |}.

(** ** Forms of the above used in the proofs *)

(** The condition under which the role filters keep an element with role
    list [roles] in an instance group of role [role]. *)
Definition appliesTo (role : InstanceGroupRole) (roles : list InstanceGroupRole) : Prop :=
  roles = [] ∨ role ∈ roles.

(** The common shape of the loops [filterHooks_range] and
    [filterFileAssets_range], over any element type with a role list
    [roles] and a copy with the role list cleared [clear]. *)
Fixpoint filter_range {T : Type} `{Zero T} (roles : T → list InstanceGroupRole)
    (clear : T → T) (s : Slice) (role : InstanceGroupRole)
    (indices : list nat) (acc : Slice) (m : Heap T) : Slice * Heap T :=
  match indices with
  | [] => (acc, m)
  | i :: indices =>
    if (0 <? length (roles (index m s i))) && negb (containsRole role (roles (index m s i)))
    then filter_range roles clear s role indices acc m
    else
      let '(acc, m) := append acc (clear (index m s i)) m in
      filter_range roles clear s role indices acc m
  end.

(** The retained copy of a hook, of a file asset. *)
Definition clearHookRoles (hook : HookSpec) : HookSpec :=
  mkHookSpec [] (hook_fields hook).
Definition clearFileAssetRoles (fileAsset : FileAssetSpec) : FileAssetSpec :=
  mkFileAssetSpec [] (fa_fields fileAsset).

(** The elements the role filters retain, as a function on lists. *)
Definition retainedHooks (role : InstanceGroupRole) (l : list HookSpec) : list HookSpec :=
  clearHookRoles <$> filter (λ hook, appliesTo role (hook_Roles hook)) l.
Definition retainedFileAssets (role : InstanceGroupRole) (l : list FileAssetSpec)
    : list FileAssetSpec :=
  clearFileAssetRoles <$> filter (λ fileAsset, appliesTo role (fa_Roles fileAsset)) l.

(** The [Config] that [NewConfig] returns, field by field, given the
    three slices it has computed. *)
Definition configOf {HS FS : Type} (cluster : Cluster) (instanceGroup : InstanceGroup)
    (igHooks clusterHooks : HS) (fileAssets : FS) : Config HS FS :=
  let aws := cp_AWS (cs_CloudProvider (cl_Spec cluster)) in
  let gce := cp_GCE (cs_CloudProvider (cl_Spec cluster)) in
  let copyAWS := HasAPIServer instanceGroup || IsKubernetesLT cluster "1.24" in
  {| cfg_Assets := ∅;
     cfg_Images := ∅;
     cfg_ClusterName := om_Name (cl_ObjectMeta cluster);
     cfg_Channels := [];
     cfg_ApiserverAdditionalIPs := [];
     cfg_Packages := [];
     cfg_EtcdManifests := [];
     cfg_CAs := ∅;
     cfg_KeypairIDs := ∅;
     cfg_DefaultMachineType :=
       match net_AmazonVPC (cs_Networking (cl_Spec cluster)) with
       | Some _ => Some (nth 0 (Split (igs_MachineType (ig_Spec instanceGroup)) comma) EmptyString)
       | None => None
       end;
     cfg_EnableLifecycleHook :=
       match aws with
       | Some aws =>
         IsEnabled (ResolveDefaults (aws_WarmPool aws) instanceGroup)
         && wp_EnableLifecycleHook (ResolveDefaults (aws_WarmPool aws) instanceGroup)
       | None => false
       end;
     cfg_StaticManifests := [];
     cfg_KubeletConfig := default KubeletConfigSpec_zero (igs_Kubelet (ig_Spec instanceGroup));
     cfg_SysctlParameters := igs_SysctlParameters (ig_Spec instanceGroup);
     cfg_UpdatePolicy :=
       match igs_UpdatePolicy (ig_Spec instanceGroup), cs_UpdatePolicy (cl_Spec cluster) with
       | Some policy, _ => policy
       | None, Some policy => policy
       | None, None => UpdatePolicyAutomatic
       end;
     cfg_VolumeMounts := igs_VolumeMounts (ig_Spec instanceGroup);
     cfg_FileAssets := fileAssets;
     cfg_Hooks := [igHooks; clusterHooks];
     cfg_ContainerRuntime := cs_ContainerRuntime (cl_Spec cluster);
     cfg_ContainerdConfig := None;
     cfg_APIServerConfig :=
       if HasAPIServer instanceGroup
       then Some {| api_KubeAPIServer := cs_KubeAPIServer (cl_Spec cluster);
                    api_EncryptionConfigSecretHash := EmptyString;
                    api_ServiceAccountPublicKeys := EmptyString |}
       else None;
     cfg_NvidiaGPU := None;
     cfg_DisableSecurityGroupIngress :=
       match aws with
       | Some aws => if copyAWS then aws_DisableSecurityGroupIngress aws else None
       | None => None
       end;
     cfg_ElbSecurityGroup :=
       match aws with
       | Some aws => if copyAWS then aws_ElbSecurityGroup aws else None
       | None => None
       end;
     cfg_NodeIPFamilies :=
       match aws with
       | Some aws => if copyAWS then aws_NodeIPFamilies aws else []
       | None => []
       end;
     cfg_UseInstanceIDForNodeName := UsesInstanceIDForNodeName cluster;
     cfg_WarmPoolImages := [];
     cfg_Multizone := gce ≫= gce_Multizone;
     cfg_NodeTags := gce ≫= gce_NodeTags;
     cfg_NodeInstancePrefix := gce ≫= gce_NodeInstancePrefix |}.

(** The [BootConfig] that [NewConfig] returns. *)
Definition bootConfigOf (cluster : Cluster) (instanceGroup : InstanceGroup) : BootConfig :=
  {| bc_CloudProvider := GetCloudProvider (cl_Spec cluster);
     bc_ConfigBase := None;
     bc_ConfigServer := None;
     bc_APIServerIP := EmptyString;
     bc_InstanceGroupName := om_Name (ig_ObjectMeta instanceGroup);
     bc_InstanceGroupRole := igs_Role (ig_Spec instanceGroup);
     bc_NodeupConfigHash := EmptyString |}.

(** The four input slices point into the store. *)
Definition inputsAllocated (cluster : Cluster) (instanceGroup : InstanceGroup) (m : Mem) : Prop :=
  allocated (hookArrays m) (cs_Hooks (cl_Spec cluster)) ∧
  allocated (hookArrays m) (igs_Hooks (ig_Spec instanceGroup)) ∧
  allocated (fileAssetArrays m) (cs_FileAssets (cl_Spec cluster)) ∧
  allocated (fileAssetArrays m) (igs_FileAssets (ig_Spec instanceGroup)).

End nodeup.

Arguments mkConfig {KT HS FS}.
Arguments cfg_Assets {KT HS FS} _.
Arguments cfg_Images {KT HS FS} _.
Arguments cfg_ClusterName {KT HS FS} _.
Arguments cfg_Channels {KT HS FS} _.
Arguments cfg_ApiserverAdditionalIPs {KT HS FS} _.
Arguments cfg_Packages {KT HS FS} _.
Arguments cfg_EtcdManifests {KT HS FS} _.
Arguments cfg_CAs {KT HS FS} _.
Arguments cfg_KeypairIDs {KT HS FS} _.
Arguments cfg_DefaultMachineType {KT HS FS} _.
Arguments cfg_EnableLifecycleHook {KT HS FS} _.
Arguments cfg_StaticManifests {KT HS FS} _.
Arguments cfg_KubeletConfig {KT HS FS} _.
Arguments cfg_SysctlParameters {KT HS FS} _.
Arguments cfg_UpdatePolicy {KT HS FS} _.
Arguments cfg_VolumeMounts {KT HS FS} _.
Arguments cfg_FileAssets {KT HS FS} _.
Arguments cfg_Hooks {KT HS FS} _.
Arguments cfg_ContainerRuntime {KT HS FS} _.
Arguments cfg_ContainerdConfig {KT HS FS} _.
Arguments cfg_APIServerConfig {KT HS FS} _.
Arguments cfg_NvidiaGPU {KT HS FS} _.
Arguments cfg_DisableSecurityGroupIngress {KT HS FS} _.
Arguments cfg_ElbSecurityGroup {KT HS FS} _.
Arguments cfg_NodeIPFamilies {KT HS FS} _.
Arguments cfg_UseInstanceIDForNodeName {KT HS FS} _.
Arguments cfg_WarmPoolImages {KT HS FS} _.
Arguments cfg_Multizone {KT HS FS} _.
Arguments cfg_NodeTags {KT HS FS} _.
Arguments cfg_NodeInstancePrefix {KT HS FS} _.

(** ** Package alitasks: the generated accessors of task [VPC] *)

Section fitask.
Context {Lifecycle VPCFields : Type}.

(** The cells that hold the lifecycle a [*fi.Lifecycle] points to: the cell
    with address [a] is the [a]-th entry. *)
Abbreviation LifecycleCells := (list Lifecycle).

(** [alitasks.VPC]: the two fields the accessors name, and the others
    ([VPCFields]).  [Lifecycle] is a pointer into the cells. *)
Record VPC := mkVPC {
  vpc_Lifecycle : option nat;
  vpc_Name : option string;
  vpc_fields : VPCFields;
}.

(** [GetLifecycle] *)
Definition GetLifecycle (o : VPC) : option nat :=
  vpc_Lifecycle o.

(** [SetLifecycle]: [o.Lifecycle = &lifecycle].  The parameter is a
    variable of its own, so its address is a new cell; the result is the
    task as the call leaves it, with the cells. *)
Definition SetLifecycle (lifecycle : Lifecycle) (o : VPC) (cells : LifecycleCells)
    : VPC * LifecycleCells :=
  (mkVPC (Some (length cells)) (vpc_Name o) (vpc_fields o), cells ++ [lifecycle]).

(** [GetName] *)
Definition GetName (o : VPC) : option string :=
  vpc_Name o.

(** The lifecycle of a task: what its [Lifecycle] pointer points to. *)
Definition lifecycleOf (cells : LifecycleCells) (o : VPC) : option Lifecycle :=
  GetLifecycle o ≫= λ a, cells !! a.

End fitask.

Arguments VPC : clear implicits.

(** ** An instance of the parameters, and inputs for the examples *)

Module Example.

(** A runtime that doubles: it adds the old capacity to what is needed. *)
Definition runtime : GoRuntime := λ oldcap need, oldcap.

(** Hooks and file assets carry a name, the cluster spec its Kubernetes
    version; the other undeclared types carry nothing. *)
Definition types : KopsTypes :=
  {| HookFields := string;
     HookFields_zero := EmptyString;
     FileAssetFields := string;
     FileAssetFields_zero := EmptyString;
     WarmPoolFields := unit;
     KubeletConfigSpec := unit;
     KubeletConfigSpec_zero := tt;
     VolumeMountSpec := unit;
     KubeAPIServerConfig := unit;
     CloudControllerManagerConfig := unit;
     AmazonVPCNetworkingSpec := unit;
     ContainerdConfig := unit;
     NvidiaGPUConfig := unit;
     ClusterSpecFields := string;
     InstanceGroupSpecFields := unit;
     Architecture := string |}.

(** A runtime that allocates exactly what is needed. *)
Definition exactRuntime : GoRuntime := λ oldcap need, 0.

#[export] Existing Instance runtime.
#[export] Existing Instance types.

(** Helper methods in the manner of package [kops]: control-plane and
    API-server instance groups host an API server; versions are compared as
    strings, which is the version order on the versions used below. *)
Definition methods : KopsMethods :=
  {| CloudProviderAWS := "aws";
     UpdatePolicyAutomatic := "automatic";
     GetCloudProvider := λ spec,
       match cp_AWS (cs_CloudProvider spec), cp_GCE (cs_CloudProvider spec) with
       | Some _, _ => "aws"
       | None, Some _ => "gce"
       | None, None => EmptyString
       end;
     ResolveDefaults := λ warmPool instanceGroup,
       default (mkWarmPoolSpec false tt) warmPool;
     IsEnabled := λ warmPool, true;
     HasAPIServer := λ instanceGroup,
       String.eqb (igs_Role (ig_Spec instanceGroup)) "ControlPlane"
       || String.eqb (igs_Role (ig_Spec instanceGroup)) "APIServer";
     IsKubernetesLT := λ cluster version,
       String.ltb (cs_fields (cl_Spec cluster)) version |}.

#[export] Existing Instance methods.

(** The store: one array of hooks for the cluster, one for the instance
    group, and likewise for file assets.  The cluster's hooks are the
    middle two cells of an array of four. *)
Definition mem : Mem :=
  {| hookArrays :=
       [ [ mkHookSpec ["Bastion"] "unused";
           mkHookSpec [] "cluster-wide";
           mkHookSpec ["ControlPlane"] "cluster-control-plane";
           mkHookSpec ["Node"] "beyond-len" ];
         [ mkHookSpec ["ControlPlane"] "ig-control-plane";
           mkHookSpec ["Bastion"; "Node"] "ig-node" ] ];
     fileAssetArrays :=
       [ [ mkFileAssetSpec [] "cluster-all";
           mkFileAssetSpec ["ControlPlane"] "cluster-control-plane" ];
         [ mkFileAssetSpec ["Node"] "ig-node" ] ] |}.

(** A cluster on GCE, Kubernetes 1.28. *)
Definition cluster : Cluster :=
  {| cl_ObjectMeta := mkObjectMeta "example.k8s.local";
     cl_Spec :=
       {| cs_Hooks := mkSlice (Some 0) 1 2 3;
          cs_FileAssets := mkSlice (Some 0) 0 2 2;
          cs_ContainerRuntime := "containerd";
          cs_CloudProvider :=
            {| cp_AWS := None;
               cp_GCE := Some {| gce_Multizone := Some true;
                                 gce_NodeTags := Some "example-k8s-local-k8s-io-role-node";
                                 gce_NodeInstancePrefix := Some "nodes-example" |} |};
          cs_UpdatePolicy := None;
          cs_Networking := {| net_AmazonVPC := Some tt |};
          cs_ExternalCloudControllerManager := Some tt;
          cs_KubeAPIServer := Some tt;
          cs_fields := "1.28.0" |} |}.

(** An instance group of worker nodes. *)
Definition instanceGroup : InstanceGroup :=
  {| ig_ObjectMeta := mkObjectMeta "nodes";
     ig_Spec :=
       {| igs_Role := "Node";
          igs_Hooks := mkSlice (Some 1) 0 2 2;
          igs_FileAssets := mkSlice (Some 1) 0 1 1;
          igs_SysctlParameters := [];
          igs_VolumeMounts := [];
          igs_UpdatePolicy := None;
          igs_MachineType := "n1-standard-2,n1-standard-4";
          igs_Kubelet := None;
          igs_fields := tt |} |}.

(** The same instance group with an update policy that is set, to the
    empty string. *)
Definition instanceGroupEmptyPolicy : InstanceGroup :=
  {| ig_ObjectMeta := mkObjectMeta "nodes";
     ig_Spec :=
       {| igs_Role := "Node";
          igs_Hooks := mkSlice (Some 1) 0 2 2;
          igs_FileAssets := mkSlice (Some 1) 0 1 1;
          igs_SysctlParameters := [];
          igs_VolumeMounts := [];
          igs_UpdatePolicy := Some EmptyString;
          igs_MachineType := "n1-standard-2,n1-standard-4";
          igs_Kubelet := None;
          igs_fields := tt |} |}.

(** A cluster and an instance group without hooks and file assets. *)
Definition bareCluster : Cluster :=
  {| cl_ObjectMeta := mkObjectMeta "bare.k8s.local";
     cl_Spec :=
       {| cs_Hooks := nilSlice;
          cs_FileAssets := nilSlice;
          cs_ContainerRuntime := "containerd";
          cs_CloudProvider := {| cp_AWS := None; cp_GCE := None |};
          cs_UpdatePolicy := None;
          cs_Networking := {| net_AmazonVPC := Some tt |};
          cs_ExternalCloudControllerManager := None;
          cs_KubeAPIServer := None;
          cs_fields := "1.28.0" |} |}.

Definition bareInstanceGroup : InstanceGroup :=
  {| ig_ObjectMeta := mkObjectMeta "bastions";
     ig_Spec :=
       {| igs_Role := "Bastion";
          igs_Hooks := nilSlice;
          igs_FileAssets := nilSlice;
          igs_SysctlParameters := [];
          igs_VolumeMounts := [];
          igs_UpdatePolicy := None;
          igs_MachineType := "t3.micro";
          igs_Kubelet := None;
          igs_fields := tt |} |}.

(** Two tasks that share a lifecycle cell. *)
Definition lifecycleCells : list string := ["Sync"].
Definition vpc : VPC unit := mkVPC (Some 0) (Some "vpc-main") tt.
Definition otherVPC : VPC unit := mkVPC (Some 0) (Some "vpc-other") tt.

(** A cluster and an instance group of bastions whose hooks and file
    assets are all for other roles. *)
Definition otherRolesCluster : Cluster :=
  {| cl_ObjectMeta := mkObjectMeta "example.k8s.local";
     cl_Spec :=
       {| cs_Hooks := mkSlice (Some 0) 2 2 2;
          cs_FileAssets := mkSlice (Some 0) 1 1 1;
          cs_ContainerRuntime := "containerd";
          cs_CloudProvider := {| cp_AWS := None; cp_GCE := None |};
          cs_UpdatePolicy := None;
          cs_Networking := {| net_AmazonVPC := None |};
          cs_ExternalCloudControllerManager := None;
          cs_KubeAPIServer := None;
          cs_fields := "1.28.0" |} |}.

Definition bastionInstanceGroup : InstanceGroup :=
  {| ig_ObjectMeta := mkObjectMeta "bastions";
     ig_Spec :=
       {| igs_Role := "Bastion";
          igs_Hooks := mkSlice (Some 1) 0 1 2;
          igs_FileAssets := mkSlice (Some 1) 0 1 1;
          igs_SysctlParameters := [];
          igs_VolumeMounts := [];
          igs_UpdatePolicy := None;
          igs_MachineType := "t3.micro";
          igs_Kubelet := None;
          igs_fields := tt |} |}.

End Example.

(* ===================================================================== *)
(** * Part II: properties                                                 *)
(* ===================================================================== *)

(** ** Slices and the store *)

Section slices_facts.
Context `{RT : GoRuntime} {T : Type} `{Zero T}.
Implicit Types (m : Heap T) (s : Slice) (xs : list T).

Lemma extends_refl m : extends m m.
Proof. by intros a arr. Qed.

Lemma extends_trans m0 m1 m2 : extends m0 m1 → extends m1 m2 → extends m0 m2.
Proof. intros H01 H12 a arr Ha. by apply H12, H01. Qed.

Lemma extends_length m0 m : extends m0 m → length m0 ≤ length m.
Proof.
  intros Hext. destruct m0 as [|arr0 m0'] using rev_ind; [simpl; lia|].
  assert (Hlast : (m0' ++ [arr0]) !! length m0' = Some arr0)
    by (rewrite lookup_app_r, Nat.sub_diag by lia; done).
  apply Hext, lookup_lt_Some in Hlast. rewrite length_app. simpl. lia.
Qed.

Lemma extends_app m k : extends m (m ++ k).
Proof. intros a arr Ha. by apply lookup_app_l_Some. Qed.

Lemma allocated_extends m0 m s : extends m0 m → allocated m0 s → allocated m s.
Proof.
  unfold allocated. intros Hext%extends_length. destruct (ptr s); [lia | done].
Qed.

Lemma arrayAt_extends m0 m s :
  extends m0 m → allocated m0 s → arrayAt m (ptr s) = arrayAt m0 (ptr s).
Proof.
  unfold allocated, arrayAt. intros Hext Hs. destruct (ptr s) as [a|]; [|done].
  destruct (lookup_lt_is_Some_2 m0 a Hs) as [arr Harr].
  by rewrite Harr, (Hext _ _ Harr).
Qed.

Lemma index_extends m0 m s i :
  extends m0 m → allocated m0 s → index m s i = index m0 s i.
Proof. intros Hext Hs. unfold index. by rewrite (arrayAt_extends m0 m). Qed.

Lemma contents_extends m0 m s :
  extends m0 m → allocated m0 s → contents m s = contents m0 s.
Proof.
  intros Hext Hs. unfold contents. apply list_fmap_ext.
  intros _ i _. by apply index_extends.
Qed.

Lemma contents_length m s : length (contents m s) = len s.
Proof. unfold contents. by rewrite length_fmap, length_seq. Qed.

Lemma owned_nil m0 m : owned m0 m nilSlice.
Proof. by left. Qed.

Lemma owned_allocated m0 m s : owned m0 m s → allocated m s.
Proof.
  unfold allocated. intros [(-> & _)|(a & arr & -> & _ & Ha & _)]; [done|].
  by eapply lookup_lt_Some.
Qed.

Lemma owned_extends m0 m m' s : extends m m' → owned m0 m s → owned m0 m' s.
Proof.
  intros Hext [Hnil|(a & arr & Hp & Ha & Harr & Hb)]; [by left | right].
  exists a, arr. split_and!; try tauto. by apply Hext.
Qed.

(** Reading a slice whose array is known. *)
Lemma index_lookup m s a arr i x :
  ptr s = Some a → m !! a = Some arr → arr !! (off s + i) = Some x →
  index m s i = x.
Proof. unfold index, arrayAt. intros -> -> Hx. simpl. by rewrite Hx. Qed.

Lemma contents_lookup_eq m s a arr l :
  ptr s = Some a → m !! a = Some arr → length l = len s →
  (∀ i, i < len s → arr !! (off s + i) = l !! i) →
  contents m s = l.
Proof.
  intros Hp Ha Hlen Hl. apply list_eq. intros i. unfold contents.
  rewrite list_lookup_fmap. destruct (decide (i < len s)) as [Hi|Hi].
  - rewrite lookup_seq_lt by done. simpl.
    destruct (lookup_lt_is_Some_2 l i) as [x Hx]; [lia|].
    rewrite Hx. f_equal. apply (index_lookup m s a arr); [done..|]. by rewrite Hl.
  - rewrite lookup_seq_ge, lookup_ge_None_2 by lia. done.
Qed.

Lemma contents_lookup m s a arr i :
  ptr s = Some a → m !! a = Some arr → off s + len s ≤ length arr → i < len s →
  arr !! (off s + i) = contents m s !! i.
Proof.
  intros Hp Ha Hb Hi. unfold contents.
  rewrite list_lookup_fmap, lookup_seq_lt by done. simpl.
  destruct (lookup_lt_is_Some_2 arr (off s + i)) as [x Hx]; [lia|].
  rewrite Hx. f_equal. symmetry. by eapply index_lookup.
Qed.

(** [append] on a slice that is nil or was allocated after [m0]: the
    arrays of [m0] stay as they are, and the result holds the old elements
    followed by the new ones. *)
Lemma appendList_spec m0 m s xs s' m' :
  extends m0 m → owned m0 m s → appendList s xs m = (s', m') →
  extends m0 m' ∧ owned m0 m' s' ∧ contents m' s' = contents m s ++ xs.
Proof.
  intros Hext Hown. unfold appendList. case_decide as Hfit; intros [= <- <-].
  - destruct Hown as [(Hp & Hl & Hc)|(a & arr & Hp & Ha & Harr & Hb & Hlc)].
    + assert (xs = []) as -> by (apply nil_length_inv; lia).
      unfold store. rewrite Hp. simpl. split_and!; [done| |].
      * left. simpl. by rewrite Hl.
      * rewrite app_nil_r. unfold contents. simpl. by rewrite Hl.
    + unfold store. rewrite Hp.
      set (arr' := list_inserts (off s + len s) xs arr).
      assert (Ha' : alter (list_inserts (off s + len s) xs) a m !! a = Some arr')
        by (by rewrite list_lookup_alter_eq, Harr).
      split_and!.
      * intros a0 arr0 H0. rewrite list_lookup_alter_ne; [by apply Hext|].
        apply lookup_lt_Some in H0. lia.
      * right. exists a, arr'. simpl. unfold arr'. rewrite length_inserts.
        split_and!; [done..|lia|lia].
      * apply (contents_lookup_eq _ _ a arr'); simpl; [done..| |].
        { by rewrite length_app, contents_length. }
        intros i Hi. unfold arr'. destruct (decide (i < len s)) as [Hlt|Hge].
        -- rewrite lookup_app_l by (rewrite contents_length; lia).
           rewrite list_lookup_inserts_lt by lia.
           apply contents_lookup with a; [done..|lia|done].
        -- rewrite lookup_app_r by (rewrite contents_length; lia).
           rewrite contents_length, list_lookup_inserts by lia. f_equal. lia.
  - unfold growslice.
    set (need := len s + length xs).
    set (arr' := contents m s ++ xs ++ replicate (need + spare (cap s) need - need) zero).
    assert (Hlen : length (contents m s ++ xs) = need)
      by (by rewrite length_app, contents_length).
    assert (Ha' : (m ++ [arr']) !! length m = Some arr')
      by (by rewrite lookup_app_r, Nat.sub_diag by lia).
    split_and!.
    + eapply extends_trans; [done | apply extends_app].
    + right. exists (length m), arr'. simpl. apply extends_length in Hext.
      split_and!; [done..| |lia]. unfold arr'.
      rewrite !length_app, contents_length, length_replicate. lia.
    + apply (contents_lookup_eq _ _ (length m) arr'); simpl; [done..|].
      intros i Hi. unfold arr'. rewrite (assoc (++)). by rewrite lookup_app_l by lia.
Qed.

Lemma append_spec m0 m s x s' m' :
  extends m0 m → owned m0 m s → append s x m = (s', m') →
  extends m0 m' ∧ owned m0 m' s' ∧ contents m' s' = contents m s ++ [x].
Proof. apply appendList_spec. Qed.

End slices_facts.

(** ** The role filters *)

Section filter_facts.
Context `{RT : GoRuntime}.

Lemma containsRole_spec v list : containsRole v list = true ↔ v ∈ list.
Proof.
  induction list as [|x rest IH]; simpl.
  - split; [done | by intros ?%elem_of_nil].
  - rewrite elem_of_cons. destruct (String.eqb_spec v x) as [->|Hne].
    + split; auto.
    + rewrite IH. split; [auto | by intros [?|?]].
Qed.

(** The test of the loops skips an element exactly when its role list is
    non-empty and lacks the role. *)
Lemma skip_test_spec role roles :
  (0 <? length roles) && negb (containsRole role roles) = false ↔ appliesTo role roles.
Proof.
  unfold appliesTo. rewrite andb_false_iff, negb_false_iff, containsRole_spec.
  rewrite Nat.ltb_ge. split; intros [Hl|Hr]; auto.
  - left. apply nil_length_inv. lia.
  - left. rewrite Hl. simpl. lia.
Qed.

Section generic.
Context {T : Type} `{Zero T} (roles : T → list InstanceGroupRole) (clear : T → T).

Lemma filter_range_spec m0 s role indices : ∀ acc m r m',
  extends m0 m → owned m0 m acc →
  filter_range roles clear s role indices acc m = (r, m') →
  extends m0 m' ∧ owned m0 m' r ∧
  (allocated m0 s →
   contents m' r =
     contents m acc ++
     (clear <$> filter (λ x, appliesTo role (roles x)) (index m0 s <$> indices))).
Proof.
  induction indices as [|i indices IH]; intros acc m r m' Hext Hown; simpl.
  - intros [= <- <-]. split_and!; [done..|]. intros _. by rewrite app_nil_r.
  - destruct ((0 <? length (roles (index m s i)))
              && negb (containsRole role (roles (index m s i)))) eqn:Htest.
    + intros Hrun. destruct (IH _ _ _ _ Hext Hown Hrun) as (He & Ho & Hc).
      split_and!; [done..|]. intros Hs. rewrite (Hc Hs).
      rewrite filter_cons_False; [done|].
      rewrite <- skip_test_spec, <- (index_extends m0 m) by done. by rewrite Htest.
    + destruct (append acc (clear (index m s i)) m) as [acc1 m1] eqn:Happ.
      destruct (append_spec _ _ _ _ _ _ Hext Hown Happ) as (He1 & Ho1 & Hc1).
      intros Hrun. destruct (IH _ _ _ _ He1 Ho1 Hrun) as (He & Ho & Hc).
      split_and!; [done..|]. intros Hs. rewrite (Hc Hs), Hc1.
      rewrite filter_cons_True.
      2:{ rewrite <- skip_test_spec, <- (index_extends m0 m) by done. done. }
      rewrite fmap_cons, <- (assoc (++)). simpl.
      by rewrite (index_extends m0 m).
Qed.

Lemma filter_spec m s role r m' :
  filter_range roles clear s role (seq 0 (len s)) nilSlice m = (r, m') →
  extends m m' ∧ owned m m' r ∧
  (allocated m s →
   contents m' r = clear <$> filter (λ x, appliesTo role (roles x)) (contents m s)).
Proof.
  intros Hrun.
  destruct (filter_range_spec m s role _ _ _ _ _ (extends_refl m) (owned_nil m m) Hrun)
    as (He & Ho & Hc).
  split_and!; [done..|]. intros Hs. by rewrite (Hc Hs).
Qed.

End generic.

Context `{KT : KopsTypes}.

Lemma filterHooks_range_eq h role indices : ∀ hooks m,
  filterHooks_range h role indices hooks m =
  filter_range hook_Roles clearHookRoles h role indices hooks m.
Proof.
  induction indices as [|i indices IH]; intros hooks m; simpl; [done|].
  destruct (_ && _); [done|]. unfold clearHookRoles.
  by destruct (append _ _ _).
Qed.

Lemma filterFileAssets_range_eq f role indices : ∀ fileAssets m,
  filterFileAssets_range f role indices fileAssets m =
  filter_range fa_Roles clearFileAssetRoles f role indices fileAssets m.
Proof.
  induction indices as [|i indices IH]; intros fileAssets m; simpl; [done|].
  destruct (_ && _); [done|]. unfold clearFileAssetRoles.
  by destruct (append _ _ _).
Qed.

(** [filterHooks] leaves the arrays it was given as they are and returns a
    slice of its own that holds the cleared copies of the hooks that apply
    to the role, in order. *)
Lemma filterHooks_spec h role m r m' :
  filterHooks h role m = (r, m') →
  extends m m' ∧ owned m m' r ∧
  (allocated m h → contents m' r = retainedHooks role (contents m h)).
Proof. unfold filterHooks. rewrite filterHooks_range_eq. apply filter_spec. Qed.

Lemma filterFileAssets_spec f role m r m' :
  filterFileAssets f role m = (r, m') →
  extends m m' ∧ owned m m' r ∧
  (allocated m f → contents m' r = retainedFileAssets role (contents m f)).
Proof. unfold filterFileAssets. rewrite filterFileAssets_range_eq. apply filter_spec. Qed.

End filter_facts.

(** ** NewConfig *)

Section nodeup_facts.
Context `{RT : GoRuntime} `{KT : KopsTypes} {KM : KopsMethods}.

(** The assignments of [NewConfig] touch pairwise different fields, so the
    struct it returns can be read off field by field. *)
Lemma NewConfig_eq cluster instanceGroup m :
  NewConfig cluster instanceGroup m =
  let role := igs_Role (ig_Spec instanceGroup) in
  let '(clusterHooks, hm) := filterHooks (cs_Hooks (cl_Spec cluster)) role (hookArrays m) in
  let '(igHooks, hm) := filterHooks (igs_Hooks (ig_Spec instanceGroup)) role hm in
  let '(igFileAssets, fm) :=
    filterFileAssets (igs_FileAssets (ig_Spec instanceGroup)) role (fileAssetArrays m) in
  let '(clusterFileAssets, fm) := filterFileAssets (cs_FileAssets (cl_Spec cluster)) role fm in
  let '(fileAssets, fm) := appendSlice igFileAssets clusterFileAssets fm in
  (configOf cluster instanceGroup igHooks clusterHooks fileAssets,
   bootConfigOf cluster instanceGroup, mkMem hm fm).
Proof.
  unfold NewConfig, configOf, bootConfigOf. simpl.
  destruct (filterHooks (cs_Hooks _) _ _) as [clusterHooks hm1].
  destruct (filterHooks (igs_Hooks _) _ _) as [igHooks hm2].
  destruct (filterFileAssets (igs_FileAssets _) _ _) as [igFileAssets fm1].
  destruct (filterFileAssets (cs_FileAssets _) _ _) as [clusterFileAssets fm2].
  destruct (appendSlice _ _ _) as [fileAssets fm3].
  do 2 f_equal.
  destruct (cp_AWS _) as [aws|], (cp_GCE _) as [gce|],
    (igs_UpdatePolicy _) as [igPolicy|]; simpl;
    try destruct (cs_UpdatePolicy _) as [clusterPolicy|]; simpl;
    destruct (net_AmazonVPC _) as [vpc|], (igs_Kubelet _) as [kubelet|],
      (UsesInstanceIDForNodeName cluster), (HasAPIServer instanceGroup);
    simpl; try reflexivity;
    destruct (IsEnabled _ && _); simpl; try reflexivity;
    destruct (IsKubernetesLT _ _); reflexivity.
Qed.

(** What [NewConfig] returns and what it does to the store: both structs
    are functions of the inputs and of three slices; no array that existed
    before the call has changed; and the three slices hold the retained
    copies of the hooks and file assets of the inputs. *)
Lemma NewConfig_spec cluster instanceGroup m config bootConfig m' :
  NewConfig cluster instanceGroup m = (config, bootConfig, m') →
  ∃ igHooks clusterHooks fileAssets,
    config = configOf cluster instanceGroup igHooks clusterHooks fileAssets ∧
    bootConfig = bootConfigOf cluster instanceGroup ∧
    extends (hookArrays m) (hookArrays m') ∧
    extends (fileAssetArrays m) (fileAssetArrays m') ∧
    (inputsAllocated cluster instanceGroup m →
     let role := igs_Role (ig_Spec instanceGroup) in
     contents (hookArrays m') igHooks =
       retainedHooks role (contents (hookArrays m) (igs_Hooks (ig_Spec instanceGroup))) ∧
     contents (hookArrays m') clusterHooks =
       retainedHooks role (contents (hookArrays m) (cs_Hooks (cl_Spec cluster))) ∧
     contents (fileAssetArrays m') fileAssets =
       retainedFileAssets role
         (contents (fileAssetArrays m) (igs_FileAssets (ig_Spec instanceGroup))) ++
       retainedFileAssets role
         (contents (fileAssetArrays m) (cs_FileAssets (cl_Spec cluster)))).
Proof.
  rewrite NewConfig_eq. simpl.
  destruct (filterHooks (cs_Hooks _) _ _) as [clusterHooks hm1] eqn:E1.
  destruct (filterHooks (igs_Hooks _) _ _) as [igHooks hm2] eqn:E2.
  destruct (filterFileAssets (igs_FileAssets _) _ _) as [igFileAssets fm1] eqn:E3.
  destruct (filterFileAssets (cs_FileAssets _) _ _) as [clusterFileAssets fm2] eqn:E4.
  destruct (appendSlice _ _ _) as [fileAssets fm3] eqn:E5.
  intros [= <- <- <-]. exists igHooks, clusterHooks, fileAssets. simpl.
  apply filterHooks_spec in E1 as (He1 & Ho1 & Hc1).
  apply filterHooks_spec in E2 as (He2 & Ho2 & Hc2).
  apply filterFileAssets_spec in E3 as (He3 & Ho3 & Hc3).
  apply filterFileAssets_spec in E4 as (He4 & Ho4 & Hc4).
  apply (appendList_spec (fileAssetArrays m)) in E5 as (He5 & Ho5 & Hc5);
    [|by eapply extends_trans|by eapply owned_extends].
  split_and!; [done|done|by eapply extends_trans|done|].
  intros (HcH & HiH & HcF & HiF). split_and!.
  - rewrite Hc2 by (by eapply allocated_extends).
    by rewrite (contents_extends (hookArrays m) hm1).
  - rewrite (contents_extends hm1 hm2) by eauto using owned_allocated. auto.
  - rewrite Hc5, Hc4 by (by eapply allocated_extends).
    rewrite (contents_extends fm1 fm2) by eauto using owned_allocated.
    rewrite Hc3 by done. by rewrite (contents_extends (fileAssetArrays m) fm1).
Qed.

(** The value of the returned [Config] is a function of the inputs and of
    the elements of the four input slices. *)
Lemma NewConfig_load cluster instanceGroup m config bootConfig m' :
  inputsAllocated cluster instanceGroup m →
  NewConfig cluster instanceGroup m = (config, bootConfig, m') →
  let role := igs_Role (ig_Spec instanceGroup) in
  loadConfig m' config =
    configOf cluster instanceGroup
      (retainedHooks role (contents (hookArrays m) (igs_Hooks (ig_Spec instanceGroup))))
      (retainedHooks role (contents (hookArrays m) (cs_Hooks (cl_Spec cluster))))
      (retainedFileAssets role
         (contents (fileAssetArrays m) (igs_FileAssets (ig_Spec instanceGroup))) ++
       retainedFileAssets role
         (contents (fileAssetArrays m) (cs_FileAssets (cl_Spec cluster)))).
Proof.
  intros Hin (igHooks & clusterHooks & fileAssets & -> & _ & _ & _ & Hc)%NewConfig_spec.
  cbv zeta in *. destruct (Hc Hin) as (<- & <- & <-). reflexivity.
Qed.

(** The elements of the input slices after the call. *)
Lemma NewConfig_inputs cluster instanceGroup m config bootConfig m' :
  inputsAllocated cluster instanceGroup m →
  NewConfig cluster instanceGroup m = (config, bootConfig, m') →
  inputsAllocated cluster instanceGroup m' ∧
  contents (hookArrays m') (cs_Hooks (cl_Spec cluster)) =
    contents (hookArrays m) (cs_Hooks (cl_Spec cluster)) ∧
  contents (hookArrays m') (igs_Hooks (ig_Spec instanceGroup)) =
    contents (hookArrays m) (igs_Hooks (ig_Spec instanceGroup)) ∧
  contents (fileAssetArrays m') (cs_FileAssets (cl_Spec cluster)) =
    contents (fileAssetArrays m) (cs_FileAssets (cl_Spec cluster)) ∧
  contents (fileAssetArrays m') (igs_FileAssets (ig_Spec instanceGroup)) =
    contents (fileAssetArrays m) (igs_FileAssets (ig_Spec instanceGroup)).
Proof.
  intros (HcH & HiH & HcF & HiF) (? & ? & ? & _ & _ & HeH & HeF & _)%NewConfig_spec.
  unfold inputsAllocated.
  split_and!; eauto using allocated_extends, contents_extends.
Qed.

End nodeup_facts.

(** ** strings.Split *)

Section split_facts.
Implicit Types (s : string) (sep : Ascii.ascii).

(** [Split] returns at least one part; its first part has no separator in
    it; and joining the parts with the separator gives the string back. *)
Lemma Split_first s sep :
  ∃ rest, Split s sep = nth 0 (Split s sep) EmptyString :: rest ∧
    (∀ i, String.get i (nth 0 (Split s sep) EmptyString) ≠ Some sep) ∧
    String.concat (String sep EmptyString) (Split s sep) = s.
Proof.
  induction s as [|c s IH]; simpl.
  - exists []. split_and!; [done| |done]. by intros [|i].
  - destruct IH as (rest & Hsplit & Hget & Hconcat).
    destruct (Split s sep) as [|first rest'] eqn:E; [done|].
    simpl in Hget. destruct (Ascii.eqb_spec c sep) as [->|Hne].
    + exists (first :: rest'). split_and!; [done| |].
      * by intros [|i].
      * simpl in *. by rewrite <- Hconcat.
    + exists rest'. split_and!; [done| |].
      * intros [|i]; simpl; [congruence | apply Hget].
      * destruct rest'; simpl in *; by rewrite <- Hconcat.
Qed.

(** A string without the separator is its own single part. *)
Lemma Split_no_separator s sep :
  (∀ i, String.get i s ≠ Some sep) → Split s sep = [s].
Proof.
  induction s as [|c s IH]; simpl; [done|]. intros Hget.
  destruct (Ascii.eqb_spec c sep) as [->|Hne]; [by destruct (Hget 0)|].
  rewrite IH; [done|]. intros i. apply (Hget (S i)).
Qed.

End split_facts.

(** ** Nil and empty results *)

Section nil_facts.
Context `{RT : GoRuntime}.

(** [append] returns nil only for nil and nothing to add, and otherwise a
    slice with an element. *)
Lemma appendList_nil_iff {T : Type} `{Zero T} (m0 m : Heap T) s xs s' m' :
  owned m0 m s → (ptr s = None ↔ len s = 0) →
  appendList s xs m = (s', m') →
  (ptr s' = None ↔ len s' = 0).
Proof.
  intros Hown Hnil. unfold appendList. case_decide as Hfit; intros [= <- <-]; simpl.
  - destruct Hown as [(Hp & Hl & Hc)|(a & arr & Hp & _)].
    + rewrite Hp. split; [lia | done].
    + rewrite Hp in Hnil |- *. split; [done|]. intros Hlen.
      apply Hnil. lia.
  - split; [done | lia].
Qed.

Lemma sliceValue_eq {T : Type} `{Zero T} (m1 m2 : Heap T) s1 s2 :
  (ptr s1 = None ↔ len s1 = 0) → (ptr s2 = None ↔ len s2 = 0) →
  contents m1 s1 = contents m2 s2 →
  sliceValue m1 s1 = sliceValue m2 s2.
Proof.
  intros Hnil1 Hnil2 Hc. assert (Hlen : len s1 = len s2)
    by (by rewrite <- (contents_length m1 s1), Hc, contents_length).
  unfold sliceValue. destruct (ptr s1) as [a1|], (ptr s2) as [a2|].
  - by rewrite Hc.
  - destruct Hnil2 as [Hnil2 _]. specialize (Hnil2 eq_refl).
    destruct Hnil1 as [_ Hnil1]. by specialize (Hnil1 ltac:(lia)).
  - destruct Hnil1 as [Hnil1 _]. specialize (Hnil1 eq_refl).
    destruct Hnil2 as [_ Hnil2]. by specialize (Hnil2 ltac:(lia)).
  - done.
Qed.

Section generic.
Context {T : Type} `{Zero T} (roles : T → list InstanceGroupRole) (clear : T → T).

(** The slice the loop returns is nil exactly when it has no element. *)
Lemma filter_range_nil_iff m0 s role indices : ∀ acc m r m',
  extends m0 m → owned m0 m acc → (ptr acc = None ↔ len acc = 0) →
  filter_range roles clear s role indices acc m = (r, m') →
  (ptr r = None ↔ len r = 0).
Proof.
  induction indices as [|i indices IH]; intros acc m r m' Hext Hown Hnil; simpl.
  - by intros [= <- <-].
  - destruct (_ && _); [by apply IH|].
    destruct (append acc (clear (index m s i)) m) as [acc1 m1] eqn:Happ.
    destruct (append_spec _ _ _ _ _ _ Hext Hown Happ) as (He1 & Ho1 & _).
    apply (IH _ _ _ _ He1 Ho1).
    exact (appendList_nil_iff m0 m acc _ acc1 m1 Hown Hnil Happ).
Qed.

End generic.

Context `{KT : KopsTypes}.

Lemma filterHooks_nil_iff h role m r m' :
  filterHooks h role m = (r, m') → (ptr r = None ↔ len r = 0).
Proof.
  unfold filterHooks. rewrite filterHooks_range_eq.
  by apply (filter_range_nil_iff _ _ m); [apply extends_refl | apply owned_nil |].
Qed.

Lemma filterFileAssets_nil_iff f role m r m' :
  filterFileAssets f role m = (r, m') → (ptr r = None ↔ len r = 0).
Proof.
  unfold filterFileAssets. rewrite filterFileAssets_range_eq.
  by apply (filter_range_nil_iff _ _ m); [apply extends_refl | apply owned_nil |].
Qed.

Context {KM : KopsMethods}.

(** Each of the three slices of the returned [Config] is nil exactly when
    it has no element. *)
Lemma NewConfig_nil_iff cluster instanceGroup m config bootConfig m' :
  NewConfig cluster instanceGroup m = (config, bootConfig, m') →
  ∃ igHooks clusterHooks,
    cfg_Hooks config = [igHooks; clusterHooks] ∧
    (ptr igHooks = None ↔ len igHooks = 0) ∧
    (ptr clusterHooks = None ↔ len clusterHooks = 0) ∧
    (ptr (cfg_FileAssets config) = None ↔ len (cfg_FileAssets config) = 0).
Proof.
  rewrite NewConfig_eq. simpl.
  destruct (filterHooks (cs_Hooks _) _ _) as [clusterHooks hm1] eqn:E1.
  destruct (filterHooks (igs_Hooks _) _ _) as [igHooks hm2] eqn:E2.
  destruct (filterFileAssets (igs_FileAssets _) _ _) as [igFileAssets fm1] eqn:E3.
  destruct (filterFileAssets (cs_FileAssets _) _ _) as [clusterFileAssets fm2] eqn:E4.
  destruct (appendSlice _ _ _) as [fileAssets fm3] eqn:E5.
  intros [= <- <- <-]. exists igHooks, clusterHooks. simpl.
  split_and!; [done | by eapply filterHooks_nil_iff | by eapply filterHooks_nil_iff |].
  pose proof (filterFileAssets_nil_iff _ _ _ _ _ E3) as Hnil.
  apply filterFileAssets_spec in E3 as (_ & Ho3 & _).
  apply filterFileAssets_spec in E4 as (He4 & _ & _).
  eapply appendList_nil_iff; [by eapply owned_extends | exact Hnil | exact E5].
Qed.

End nil_facts.

Section value_facts.
Context `{KT : KopsTypes} {KM : KopsMethods}.

(** Slices of equal value are both nil or both not. *)
Lemma sliceValue_nil_iff {T : Type} `{Zero T} (m1 m2 : Heap T) s1 s2 :
  sliceValue m1 s1 = sliceValue m2 s2 → (ptr s1 = None ↔ ptr s2 = None).
Proof. unfold sliceValue. by destruct (ptr s1), (ptr s2). Qed.

Lemma sliceValues_nil_iff {T : Type} `{Zero T} (m1 m2 : Heap T) l1 : ∀ l2,
  sliceValue m1 <$> l1 = sliceValue m2 <$> l2 →
  Forall2 (λ s1 s2, ptr s1 = None ↔ ptr s2 = None) l1 l2.
Proof.
  induction l1 as [|s1 l1 IH]; intros [|s2 l2]; simpl; try done.
  intros [= Hs Hl]. constructor; [by eapply sliceValue_nil_iff | by apply IH].
Qed.

(** The value of the returned [Config], nil-ness included, follows from
    its elements. *)
Lemma NewConfig_configValue (RT1 RT2 : GoRuntime) cluster instanceGroup
    m1 m2 config1 config2 bootConfig1 bootConfig2 m1' m2' :
  NewConfig (RT:=RT1) cluster instanceGroup m1 = (config1, bootConfig1, m1') →
  NewConfig (RT:=RT2) cluster instanceGroup m2 = (config2, bootConfig2, m2') →
  loadConfig m1' config1 = loadConfig m2' config2 →
  configValue m1' config1 = configValue m2' config2.
Proof.
  intros Hrun1 Hrun2 Hload.
  pose proof (NewConfig_nil_iff (RT:=RT1) _ _ _ _ _ _ Hrun1)
    as (igHooks1 & clusterHooks1 & Hhooks1 & Hig1 & Hcl1 & Hfa1).
  pose proof (NewConfig_nil_iff (RT:=RT2) _ _ _ _ _ _ Hrun2)
    as (igHooks2 & clusterHooks2 & Hhooks2 & Hig2 & Hcl2 & Hfa2).
  assert (HH : cfg_Hooks (loadConfig m1' config1) = cfg_Hooks (loadConfig m2' config2))
    by (by rewrite Hload).
  assert (HF : cfg_FileAssets (loadConfig m1' config1) =
               cfg_FileAssets (loadConfig m2' config2)) by (by rewrite Hload).
  simpl in HH, HF. rewrite Hhooks1, Hhooks2 in HH. injection HH as HHig HHcl.
  assert (Hvalue : configValue m1' config1 =
    {| cfg_Assets := cfg_Assets (loadConfig m1' config1);
       cfg_Images := cfg_Images (loadConfig m1' config1);
       cfg_ClusterName := cfg_ClusterName (loadConfig m1' config1);
       cfg_Channels := cfg_Channels (loadConfig m1' config1);
       cfg_ApiserverAdditionalIPs := cfg_ApiserverAdditionalIPs (loadConfig m1' config1);
       cfg_Packages := cfg_Packages (loadConfig m1' config1);
       cfg_EtcdManifests := cfg_EtcdManifests (loadConfig m1' config1);
       cfg_CAs := cfg_CAs (loadConfig m1' config1);
       cfg_KeypairIDs := cfg_KeypairIDs (loadConfig m1' config1);
       cfg_DefaultMachineType := cfg_DefaultMachineType (loadConfig m1' config1);
       cfg_EnableLifecycleHook := cfg_EnableLifecycleHook (loadConfig m1' config1);
       cfg_StaticManifests := cfg_StaticManifests (loadConfig m1' config1);
       cfg_KubeletConfig := cfg_KubeletConfig (loadConfig m1' config1);
       cfg_SysctlParameters := cfg_SysctlParameters (loadConfig m1' config1);
       cfg_UpdatePolicy := cfg_UpdatePolicy (loadConfig m1' config1);
       cfg_VolumeMounts := cfg_VolumeMounts (loadConfig m1' config1);
       cfg_FileAssets := sliceValue (fileAssetArrays m2') (cfg_FileAssets config2);
       cfg_Hooks := sliceValue (hookArrays m2') <$> cfg_Hooks config2;
       cfg_ContainerRuntime := cfg_ContainerRuntime (loadConfig m1' config1);
       cfg_ContainerdConfig := cfg_ContainerdConfig (loadConfig m1' config1);
       cfg_APIServerConfig := cfg_APIServerConfig (loadConfig m1' config1);
       cfg_NvidiaGPU := cfg_NvidiaGPU (loadConfig m1' config1);
       cfg_DisableSecurityGroupIngress :=
         cfg_DisableSecurityGroupIngress (loadConfig m1' config1);
       cfg_ElbSecurityGroup := cfg_ElbSecurityGroup (loadConfig m1' config1);
       cfg_NodeIPFamilies := cfg_NodeIPFamilies (loadConfig m1' config1);
       cfg_UseInstanceIDForNodeName := cfg_UseInstanceIDForNodeName (loadConfig m1' config1);
       cfg_WarmPoolImages := cfg_WarmPoolImages (loadConfig m1' config1);
       cfg_Multizone := cfg_Multizone (loadConfig m1' config1);
       cfg_NodeTags := cfg_NodeTags (loadConfig m1' config1);
       cfg_NodeInstancePrefix := cfg_NodeInstancePrefix (loadConfig m1' config1) |}).
  { unfold configValue. simpl. rewrite Hhooks1, Hhooks2. simpl.
    rewrite (sliceValue_eq _ (hookArrays m2') igHooks1 igHooks2) by done.
    rewrite (sliceValue_eq _ (hookArrays m2') clusterHooks1 clusterHooks2) by done.
    by rewrite (sliceValue_eq _ (fileAssetArrays m2') (cfg_FileAssets config1)
                  (cfg_FileAssets config2)). }
  rewrite Hvalue, Hload. reflexivity.
Qed.

End value_facts.

(* ===================================================================== *)
(** * Part III: the claims of the specification                           *)
(* ===================================================================== *)

Section claims.
Context `{KT : KopsTypes} {KM : KopsMethods}.

(** C1, as amended.  The [BootConfig] that [NewConfig] returns carries the
    provider identity, the instance group's name and its role.  Its
    [ConfigBase], [ConfigServer], [APIServerIP] and [NodeupConfigHash] are
    left at their zero values: [NewConfig] computes no hash and knows no
    config server. *)
Theorem NewConfig_bootConfig `{RT : GoRuntime} cluster instanceGroup m :
  (NewConfig cluster instanceGroup m).1.2 =
    {| bc_CloudProvider := GetCloudProvider (cl_Spec cluster);
       bc_ConfigBase := None;
       bc_ConfigServer := None;
       bc_APIServerIP := EmptyString;
       bc_InstanceGroupName := om_Name (ig_ObjectMeta instanceGroup);
       bc_InstanceGroupRole := igs_Role (ig_Spec instanceGroup);
       bc_NodeupConfigHash := EmptyString |}.
Proof.
  destruct (NewConfig cluster instanceGroup m) as [[config bootConfig] m'] eqn:Hrun.
  apply NewConfig_spec in Hrun as (? & ? & ? & _ & -> & _). reflexivity.
Qed.

(** C2.  The role filters keep exactly the elements whose role list is
    empty or contains the instance group's role, in their order, each as a
    copy (see C3); an element with a non-empty role list that lacks the
    role is left out.  So the [Config] of an instance group holds, of the
    hooks and file assets of the instance group and of the cluster, those
    with no roles and those that name its role, and none that names only
    other roles. *)
Theorem role_filter_retains `{RT : GoRuntime} cluster instanceGroup m h f role :
  inputsAllocated cluster instanceGroup m →
  allocated (hookArrays m) h →
  allocated (fileAssetArrays m) f →
  (let '(hooks, hm) := filterHooks h role (hookArrays m) in
   contents hm hooks =
     clearHookRoles <$>
       filter (λ hook, hook_Roles hook = [] ∨ role ∈ hook_Roles hook)
         (contents (hookArrays m) h)) ∧
  (let '(fileAssets, fm) := filterFileAssets f role (fileAssetArrays m) in
   contents fm fileAssets =
     clearFileAssetRoles <$>
       filter (λ fileAsset, fa_Roles fileAsset = [] ∨ role ∈ fa_Roles fileAsset)
         (contents (fileAssetArrays m) f)) ∧
  (let igRole := igs_Role (ig_Spec instanceGroup) in
   let '(config, _, m') := NewConfig cluster instanceGroup m in
   cfg_Hooks (loadConfig m' config) =
     [ clearHookRoles <$>
         filter (λ hook, hook_Roles hook = [] ∨ igRole ∈ hook_Roles hook)
           (contents (hookArrays m) (igs_Hooks (ig_Spec instanceGroup)));
       clearHookRoles <$>
         filter (λ hook, hook_Roles hook = [] ∨ igRole ∈ hook_Roles hook)
           (contents (hookArrays m) (cs_Hooks (cl_Spec cluster))) ] ∧
   cfg_FileAssets (loadConfig m' config) =
     (clearFileAssetRoles <$>
        filter (λ fileAsset, fa_Roles fileAsset = [] ∨ igRole ∈ fa_Roles fileAsset)
          (contents (fileAssetArrays m) (igs_FileAssets (ig_Spec instanceGroup)))) ++
     (clearFileAssetRoles <$>
        filter (λ fileAsset, fa_Roles fileAsset = [] ∨ igRole ∈ fa_Roles fileAsset)
          (contents (fileAssetArrays m) (cs_FileAssets (cl_Spec cluster))))).
Proof.
  intros Hin Hh Hf. split_and!.
  - destruct (filterHooks h role (hookArrays m)) as [hooks hm] eqn:Hrun.
    apply filterHooks_spec in Hrun as (_ & _ & Hc). by rewrite Hc.
  - destruct (filterFileAssets f role (fileAssetArrays m)) as [fileAssets fm] eqn:Hrun.
    apply filterFileAssets_spec in Hrun as (_ & _ & Hc). by rewrite Hc.
  - intros igRole.
    destruct (NewConfig cluster instanceGroup m) as [[config bootConfig] m'] eqn:Hrun.
    by rewrite (NewConfig_load _ _ _ _ _ _ Hin Hrun).
Qed.

(** C3.  Every hook that [filterHooks] returns and every file asset that
    [filterFileAssets] returns has an empty role list, whatever role list
    the element it was copied from has; so has every hook and file asset
    of the [Config] that [NewConfig] returns. *)
Theorem role_filter_clears_roles `{RT : GoRuntime} cluster instanceGroup m h f role :
  inputsAllocated cluster instanceGroup m →
  allocated (hookArrays m) h →
  allocated (fileAssetArrays m) f →
  (let '(hooks, hm) := filterHooks h role (hookArrays m) in
   ∀ hook, hook ∈ contents hm hooks → hook_Roles hook = []) ∧
  (let '(fileAssets, fm) := filterFileAssets f role (fileAssetArrays m) in
   ∀ fileAsset, fileAsset ∈ contents fm fileAssets → fa_Roles fileAsset = []) ∧
  (let '(config, _, m') := NewConfig cluster instanceGroup m in
   (∀ hooks hook, hooks ∈ cfg_Hooks (loadConfig m' config) → hook ∈ hooks →
      hook_Roles hook = []) ∧
   (∀ fileAsset, fileAsset ∈ cfg_FileAssets (loadConfig m' config) →
      fa_Roles fileAsset = [])).
Proof.
  assert (Hhooks : ∀ r l hook, hook ∈ retainedHooks r l → hook_Roles hook = []).
  { intros r l hook (x & -> & _)%list_elem_of_fmap. done. }
  assert (Hfiles : ∀ r l fileAsset,
             fileAsset ∈ retainedFileAssets r l → fa_Roles fileAsset = []).
  { intros r l fileAsset (x & -> & _)%list_elem_of_fmap. done. }
  intros Hin Hh Hf. split_and!.
  - destruct (filterHooks h role (hookArrays m)) as [hooks hm] eqn:Hrun.
    apply filterHooks_spec in Hrun as (_ & _ & Hc). rewrite Hc by done. eauto.
  - destruct (filterFileAssets f role (fileAssetArrays m)) as [fileAssets fm] eqn:Hrun.
    apply filterFileAssets_spec in Hrun as (_ & _ & Hc). rewrite Hc by done. eauto.
  - destruct (NewConfig cluster instanceGroup m) as [[config bootConfig] m'] eqn:Hrun.
    rewrite (NewConfig_load _ _ _ _ _ _ Hin Hrun). simpl. split.
    + intros hooks hook [->|[->|[]%elem_of_nil]%elem_of_cons]%elem_of_cons; eauto.
    + intros fileAsset [?|?]%elem_of_app; eauto.
Qed.

(** C4.  [NewConfig] is deterministic.  Run on the same cluster and
    instance group in two stores in which the hook and file-asset slices of
    the inputs hold the same elements, under whatever capacities the
    runtime picks when it grows a slice, it returns [Config]s of equal
    value and equal [BootConfig]s.  The values are equal also where a nil
    slice is told apart from an empty one: each of the two lists of hooks
    and the list of file assets is nil in the one result exactly when it is
    nil in the other.  Whatever is computed from these values, such as a
    serialization that writes nil and empty slices differently, or a hash
    of it, is then equal as well. *)
Theorem NewConfig_deterministic (RT1 RT2 : GoRuntime) cluster instanceGroup m1 m2 :
  inputsAllocated cluster instanceGroup m1 →
  inputsAllocated cluster instanceGroup m2 →
  contents (hookArrays m1) (cs_Hooks (cl_Spec cluster)) =
    contents (hookArrays m2) (cs_Hooks (cl_Spec cluster)) →
  contents (hookArrays m1) (igs_Hooks (ig_Spec instanceGroup)) =
    contents (hookArrays m2) (igs_Hooks (ig_Spec instanceGroup)) →
  contents (fileAssetArrays m1) (cs_FileAssets (cl_Spec cluster)) =
    contents (fileAssetArrays m2) (cs_FileAssets (cl_Spec cluster)) →
  contents (fileAssetArrays m1) (igs_FileAssets (ig_Spec instanceGroup)) =
    contents (fileAssetArrays m2) (igs_FileAssets (ig_Spec instanceGroup)) →
  let '(config1, bootConfig1, m1') := NewConfig (RT:=RT1) cluster instanceGroup m1 in
  let '(config2, bootConfig2, m2') := NewConfig (RT:=RT2) cluster instanceGroup m2 in
  loadConfig m1' config1 = loadConfig m2' config2 ∧
  bootConfig1 = bootConfig2 ∧
  (∀ (Bytes : Type)
     (marshal : Config (list HookSpec) (list FileAssetSpec) * BootConfig → Bytes),
     marshal (loadConfig m1' config1, bootConfig1) =
     marshal (loadConfig m2' config2, bootConfig2)) ∧
  configValue m1' config1 = configValue m2' config2 ∧
  Forall2 (λ hooks1 hooks2, ptr hooks1 = None ↔ ptr hooks2 = None)
    (cfg_Hooks config1) (cfg_Hooks config2) ∧
  (ptr (cfg_FileAssets config1) = None ↔ ptr (cfg_FileAssets config2) = None) ∧
  (∀ (Bytes : Type)
     (marshal : Config (option (list HookSpec)) (option (list FileAssetSpec))
                * BootConfig → Bytes),
     marshal (configValue m1' config1, bootConfig1) =
     marshal (configValue m2' config2, bootConfig2)).
Proof.
  intros Hin1 Hin2 HcH HiH HcF HiF.
  destruct (NewConfig (RT:=RT1) _ _ _) as [[config1 bootConfig1] m1'] eqn:Hrun1.
  destruct (NewConfig (RT:=RT2) _ _ _) as [[config2 bootConfig2] m2'] eqn:Hrun2.
  assert (Hconfig : loadConfig m1' config1 = loadConfig m2' config2).
  { rewrite (NewConfig_load _ _ _ _ _ _ Hin1 Hrun1).
    rewrite (NewConfig_load _ _ _ _ _ _ Hin2 Hrun2).
    by rewrite HcH, HiH, HcF, HiF. }
  assert (Hvalue : configValue m1' config1 = configValue m2' config2)
    by exact (NewConfig_configValue RT1 RT2 _ _ _ _ _ _ _ _ _ _ Hrun1 Hrun2 Hconfig).
  assert (Hboot : bootConfig1 = bootConfig2).
  { apply NewConfig_spec in Hrun1 as (? & ? & ? & _ & -> & _).
    by apply NewConfig_spec in Hrun2 as (? & ? & ? & _ & -> & _). }
  split_and!; [done|done| |done| | |].
  - intros Bytes marshal. by rewrite Hconfig, Hboot.
  - apply (sliceValues_nil_iff (hookArrays m1') (hookArrays m2')).
    exact (f_equal cfg_Hooks Hvalue).
  - apply (sliceValue_nil_iff (fileAssetArrays m1') (fileAssetArrays m2')).
    exact (f_equal cfg_FileAssets Hvalue).
  - intros Bytes marshal. by rewrite Hvalue, Hboot.
Qed.

(** C5.  [UseInstanceIDForNodeName] of the returned [Config] is what
    [UsesInstanceIDForNodeName] computes: it is true exactly when the
    cluster has an external cloud-controller-manager configured and its
    cloud provider is AWS. *)
Theorem NewConfig_UseInstanceIDForNodeName `{RT : GoRuntime} cluster instanceGroup m :
  let config := (NewConfig cluster instanceGroup m).1.1 in
  cfg_UseInstanceIDForNodeName config = UsesInstanceIDForNodeName cluster ∧
  (cfg_UseInstanceIDForNodeName config = true ↔
     cs_ExternalCloudControllerManager (cl_Spec cluster) ≠ None ∧
     GetCloudProvider (cl_Spec cluster) = CloudProviderAWS).
Proof.
  destruct (NewConfig cluster instanceGroup m) as [[config bootConfig] m'] eqn:Hrun.
  apply NewConfig_spec in Hrun as (? & ? & ? & -> & _). simpl.
  split; [done|]. unfold UsesInstanceIDForNodeName.
  by rewrite andb_true_iff, bool_decide_eq_true, String.eqb_eq.
Qed.

(** C6.  When the cluster's networking configures AmazonVPC,
    [DefaultMachineType] is set to the first of the comma-separated parts
    of the instance group's [MachineType]: the part before the first comma,
    or all of it when there is none.  Otherwise it is left unset. *)
Theorem NewConfig_DefaultMachineType `{RT : GoRuntime} cluster instanceGroup m :
  let config := (NewConfig cluster instanceGroup m).1.1 in
  let machineType := igs_MachineType (ig_Spec instanceGroup) in
  match net_AmazonVPC (cs_Networking (cl_Spec cluster)) with
  | Some _ =>
    ∃ first rest,
      cfg_DefaultMachineType config = Some first ∧
      Split machineType comma = first :: rest ∧
      (∀ i, String.get i first ≠ Some comma) ∧
      String.concat "," (first :: rest) = machineType
  | None => cfg_DefaultMachineType config = None
  end.
Proof.
  destruct (NewConfig cluster instanceGroup m) as [[config bootConfig] m'] eqn:Hrun.
  apply NewConfig_spec in Hrun as (? & ? & ? & -> & _). simpl.
  destruct (net_AmazonVPC _); [|done].
  destruct (Split_first (igs_MachineType (ig_Spec instanceGroup)) comma)
    as (rest & Hsplit & Hget & Hconcat).
  eexists _, rest. split_and!; [done..|]. rewrite Hsplit in Hconcat. exact Hconcat.
Qed.

(** C7.  The returned [Config] has an [APIServerConfig] exactly when the
    instance group hosts an API server, and it then holds the cluster's
    [KubeAPIServer] configuration and nothing else. *)
Theorem NewConfig_APIServerConfig `{RT : GoRuntime} cluster instanceGroup m :
  let config := (NewConfig cluster instanceGroup m).1.1 in
  (cfg_APIServerConfig config ≠ None ↔ HasAPIServer instanceGroup = true) ∧
  cfg_APIServerConfig config =
    if HasAPIServer instanceGroup
    then Some {| api_KubeAPIServer := cs_KubeAPIServer (cl_Spec cluster);
                 api_EncryptionConfigSecretHash := EmptyString;
                 api_ServiceAccountPublicKeys := EmptyString |}
    else None.
Proof.
  destruct (NewConfig cluster instanceGroup m) as [[config bootConfig] m'] eqn:Hrun.
  apply NewConfig_spec in Hrun as (? & ? & ? & -> & _). simpl.
  by destruct (HasAPIServer instanceGroup).
Qed.

(** C8, as amended.  The AWS fields [DisableSecurityGroupIngress],
    [ElbSecurityGroup] and [NodeIPFamilies] are copied from the cluster's
    AWS settings only when the instance group hosts an API server or the
    cluster's Kubernetes version is below 1.24, and are otherwise left
    unset.  The GCE fields [Multizone], [NodeTags] and [NodeInstancePrefix]
    are copied from the cluster's GCE settings whenever the cluster has
    them, for every instance group and version. *)
Theorem NewConfig_provider_fields `{RT : GoRuntime} cluster instanceGroup m :
  let config := (NewConfig cluster instanceGroup m).1.1 in
  (cfg_DisableSecurityGroupIngress config, cfg_ElbSecurityGroup config,
   cfg_NodeIPFamilies config) =
    match cp_AWS (cs_CloudProvider (cl_Spec cluster)) with
    | Some aws =>
      if HasAPIServer instanceGroup || IsKubernetesLT cluster "1.24"
      then (aws_DisableSecurityGroupIngress aws, aws_ElbSecurityGroup aws,
            aws_NodeIPFamilies aws)
      else (None, None, [])
    | None => (None, None, [])
    end ∧
  (cfg_Multizone config, cfg_NodeTags config, cfg_NodeInstancePrefix config) =
    match cp_GCE (cs_CloudProvider (cl_Spec cluster)) with
    | Some gce => (gce_Multizone gce, gce_NodeTags gce, gce_NodeInstancePrefix gce)
    | None => (None, None, None)
    end.
Proof.
  destruct (NewConfig cluster instanceGroup m) as [[config bootConfig] m'] eqn:Hrun.
  apply NewConfig_spec in Hrun as (? & ? & ? & -> & _). simpl. split.
  - destruct (cp_AWS _); [|done]. by destruct (_ || _).
  - by destruct (cp_GCE _).
Qed.

(** C9.  [NewConfig] writes to none of its inputs.  Every array that exists
    before the call holds the same cells after it, so the hook and
    file-asset slices of the cluster and of the instance group hold the
    same elements, role lists included; the cluster and the instance group
    themselves are only read. *)
Theorem NewConfig_frame `{RT : GoRuntime} cluster instanceGroup m :
  inputsAllocated cluster instanceGroup m →
  let '(config, bootConfig, m') := NewConfig cluster instanceGroup m in
  (∀ a arr, hookArrays m !! a = Some arr → hookArrays m' !! a = Some arr) ∧
  (∀ a arr, fileAssetArrays m !! a = Some arr → fileAssetArrays m' !! a = Some arr) ∧
  contents (hookArrays m') (cs_Hooks (cl_Spec cluster)) =
    contents (hookArrays m) (cs_Hooks (cl_Spec cluster)) ∧
  contents (hookArrays m') (igs_Hooks (ig_Spec instanceGroup)) =
    contents (hookArrays m) (igs_Hooks (ig_Spec instanceGroup)) ∧
  contents (fileAssetArrays m') (cs_FileAssets (cl_Spec cluster)) =
    contents (fileAssetArrays m) (cs_FileAssets (cl_Spec cluster)) ∧
  contents (fileAssetArrays m') (igs_FileAssets (ig_Spec instanceGroup)) =
    contents (fileAssetArrays m) (igs_FileAssets (ig_Spec instanceGroup)).
Proof.
  intros Hin.
  destruct (NewConfig cluster instanceGroup m) as [[config bootConfig] m'] eqn:Hrun.
  destruct (NewConfig_inputs _ _ _ _ _ _ Hin Hrun) as (_ & ? & ? & ? & ?).
  apply NewConfig_spec in Hrun as (? & ? & ? & _ & _ & HeH & HeF & _).
  split_and!; done.
Qed.

(** C10, as amended.  [UpdatePolicy] is the instance group's update policy
    when that is set, otherwise the cluster's when that is set, otherwise
    the automatic update policy.  A policy that is set is copied as it is,
    the empty string included; so [UpdatePolicy] is not empty when no
    policy that is set is empty and the automatic policy is not. *)
Theorem NewConfig_UpdatePolicy `{RT : GoRuntime} cluster instanceGroup m :
  let config := (NewConfig cluster instanceGroup m).1.1 in
  cfg_UpdatePolicy config =
    match igs_UpdatePolicy (ig_Spec instanceGroup), cs_UpdatePolicy (cl_Spec cluster) with
    | Some policy, _ => policy
    | None, Some policy => policy
    | None, None => UpdatePolicyAutomatic
    end ∧
  (igs_UpdatePolicy (ig_Spec instanceGroup) ≠ Some EmptyString →
   cs_UpdatePolicy (cl_Spec cluster) ≠ Some EmptyString →
   UpdatePolicyAutomatic ≠ EmptyString →
   cfg_UpdatePolicy config ≠ EmptyString).
Proof.
  destruct (NewConfig cluster instanceGroup m) as [[config bootConfig] m'] eqn:Hrun.
  apply NewConfig_spec in Hrun as (? & ? & ? & -> & _). simpl.
  split; [done|].
  destruct (igs_UpdatePolicy _) as [policy|]; [congruence|].
  destruct (cs_UpdatePolicy _) as [policy|]; congruence.
Qed.

End claims.

(* ===================================================================== *)
(** * Part III, continued: further properties of the code                 *)
(* ===================================================================== *)

(** ** More on slices and on the role filters *)

Section more_filter_facts.
Context `{RT : GoRuntime}.

Lemma owned_base {T : Type} (m0 m1 m : Heap T) s :
  extends m0 m1 → owned m1 m s → owned m0 m s.
Proof.
  intros Hext%extends_length [Hnil|(a & arr & Hp & Ha & Hb)]; [by left | right].
  exists a, arr. split_and!; try tauto. lia.
Qed.

(** A slice that points into the store [m1] and a slice allocated after
    [m1] lie in different arrays. *)
Lemma owned_disjoint {T : Type} (m0 m1 m2 : Heap T) s t a :
  owned m0 m1 s → owned m1 m2 t → ptr t = Some a → ptr s ≠ Some a.
Proof.
  intros Hs [(Hnil & _)|(b & arr & Hp & Hb & _)] Ha; [congruence|].
  apply owned_allocated in Hs. unfold allocated in Hs.
  destruct (ptr s) as [c|]; [|done]. intros [= ->].
  assert (b = a) as -> by congruence. lia.
Qed.

Lemma appendSlice_nil {T : Type} `{Zero T} (m : Heap T) :
  appendSlice nilSlice nilSlice m = (nilSlice, m).
Proof.
  unfold appendSlice, appendList.
  destruct (decide _) as [_|Hn]; [reflexivity | simpl in Hn; lia].
Qed.

Section generic.
Context {T : Type} `{Zero T} (roles : T → list InstanceGroupRole) (clear : T → T).

(** When no element applies, the loop appends nothing. *)
Lemma filter_range_none m s role indices acc :
  filter (λ x, appliesTo role (roles x)) (index m s <$> indices) = [] →
  filter_range roles clear s role indices acc m = (acc, m).
Proof.
  induction indices as [|i indices IH]; simpl; [done|].
  rewrite filter_cons. case_decide as Happ; [done|]. intros Hnone.
  destruct (_ && _) eqn:Htest; [by apply IH|].
  by apply skip_test_spec in Htest.
Qed.

End generic.

Context `{KT : KopsTypes}.

Lemma filterHooks_none h role m :
  filter (λ hook, appliesTo role (hook_Roles hook)) (contents m h) = [] →
  filterHooks h role m = (nilSlice, m).
Proof. unfold filterHooks. rewrite filterHooks_range_eq. apply filter_range_none. Qed.

Lemma filterFileAssets_none f role m :
  filter (λ fileAsset, appliesTo role (fa_Roles fileAsset)) (contents m f) = [] →
  filterFileAssets f role m = (nilSlice, m).
Proof.
  unfold filterFileAssets. rewrite filterFileAssets_range_eq. apply filter_range_none.
Qed.

(** The retained copies all apply to every role. *)
Lemma retainedHooks_again role role' l :
  retainedHooks role' (retainedHooks role l) = retainedHooks role l.
Proof.
  unfold retainedHooks. induction (filter _ l) as [|hook k IH]; [done|].
  rewrite fmap_cons, filter_cons_True by (by left).
  rewrite fmap_cons. f_equal. exact IH.
Qed.

Lemma retainedFileAssets_again role role' l :
  retainedFileAssets role' (retainedFileAssets role l) = retainedFileAssets role l.
Proof.
  unfold retainedFileAssets. induction (filter _ l) as [|fileAsset k IH]; [done|].
  rewrite fmap_cons, filter_cons_True by (by left).
  rewrite fmap_cons. f_equal. exact IH.
Qed.

End more_filter_facts.

(** ** The role filters *)

Section extra_filters.
Context `{RT : GoRuntime} `{KT : KopsTypes}.

(** X1.  [containsRole] tells whether the role occurs in the list: it
    returns true exactly for a role that is an element of the list, and
    false exactly for one that is not; in particular false for the empty
    list. *)
Theorem containsRole_iff v list :
  (containsRole v list = true ↔ v ∈ list) ∧
  (containsRole v list = false ↔ v ∉ list).
Proof.
  split; [apply containsRole_spec|].
  rewrite <- containsRole_spec. by destruct (containsRole v list).
Qed.

(** X2.  When no hook of the slice applies to the role, in particular when
    the slice is empty, [filterHooks] returns the nil slice and allocates
    nothing: the store is as before.  Likewise [filterFileAssets]. *)
Theorem role_filter_nothing_applies h f role (hm : Heap HookSpec) (fm : Heap FileAssetSpec) :
  (filter (λ hook, hook_Roles hook = [] ∨ role ∈ hook_Roles hook) (contents hm h) = [] →
   filterHooks h role hm = (nilSlice, hm)) ∧
  (filter (λ fileAsset, fa_Roles fileAsset = [] ∨ role ∈ fa_Roles fileAsset)
     (contents fm f) = [] →
   filterFileAssets f role fm = (nilSlice, fm)).
Proof. split; [apply filterHooks_none | apply filterFileAssets_none]. Qed.

(** X3.  The slice that [filterHooks] returns is nil or lies, within the
    bounds of its capacity, in an array that the call has allocated: it
    shares no array with the slice it was given or with any other slice
    that existed before.  Likewise [filterFileAssets]. *)
Theorem role_filter_result_fresh h f role (hm : Heap HookSpec) (fm : Heap FileAssetSpec) :
  (let '(hooks, hm') := filterHooks h role hm in
   (ptr hooks = None ∧ len hooks = 0 ∧ cap hooks = 0) ∨
   (∃ a arr, ptr hooks = Some a ∧ length hm ≤ a ∧ hm' !! a = Some arr ∧
             off hooks + cap hooks ≤ length arr ∧ len hooks ≤ cap hooks)) ∧
  (let '(fileAssets, fm') := filterFileAssets f role fm in
   (ptr fileAssets = None ∧ len fileAssets = 0 ∧ cap fileAssets = 0) ∨
   (∃ a arr, ptr fileAssets = Some a ∧ length fm ≤ a ∧ fm' !! a = Some arr ∧
             off fileAssets + cap fileAssets ≤ length arr ∧
             len fileAssets ≤ cap fileAssets)).
Proof.
  split.
  - destruct (filterHooks h role hm) as [hooks hm'] eqn:Hrun.
    by apply filterHooks_spec in Hrun as (_ & Ho & _).
  - destruct (filterFileAssets f role fm) as [fileAssets fm'] eqn:Hrun.
    by apply filterFileAssets_spec in Hrun as (_ & Ho & _).
Qed.

(** X4.  The length of the slice that [filterHooks] returns is the number
    of hooks that apply to the role, which is at most the length of the
    slice it was given.  Likewise [filterFileAssets]. *)
Theorem role_filter_length h f role (hm : Heap HookSpec) (fm : Heap FileAssetSpec) :
  allocated hm h →
  allocated fm f →
  (let '(hooks, _) := filterHooks h role hm in
   len hooks =
     length (filter (λ hook, hook_Roles hook = [] ∨ role ∈ hook_Roles hook)
               (contents hm h)) ∧
   len hooks ≤ len h) ∧
  (let '(fileAssets, _) := filterFileAssets f role fm in
   len fileAssets =
     length (filter (λ fileAsset, fa_Roles fileAsset = [] ∨ role ∈ fa_Roles fileAsset)
               (contents fm f)) ∧
   len fileAssets ≤ len f).
Proof.
  intros Hh Hf. split.
  - destruct (filterHooks h role hm) as [hooks hm'] eqn:Hrun.
    apply filterHooks_spec in Hrun as (_ & _ & Hc).
    apply (f_equal length) in Hc; [|done].
    unfold retainedHooks in Hc. rewrite contents_length, length_fmap in Hc.
    split; [exact Hc|]. rewrite <- (contents_length hm h), Hc. apply length_filter.
  - destruct (filterFileAssets f role fm) as [fileAssets fm'] eqn:Hrun.
    apply filterFileAssets_spec in Hrun as (_ & _ & Hc).
    apply (f_equal length) in Hc; [|done].
    unfold retainedFileAssets in Hc. rewrite contents_length, length_fmap in Hc.
    split; [exact Hc|]. rewrite <- (contents_length fm f), Hc. apply length_filter.
Qed.

(** X5.  Filtering again changes nothing: [filterHooks], applied for any
    role to a slice that [filterHooks] has returned, returns a slice with
    the same hooks, and leaves the first slice as it is.  Likewise
    [filterFileAssets]. *)
Theorem role_filter_twice h f role role' (hm : Heap HookSpec) (fm : Heap FileAssetSpec) :
  allocated hm h →
  allocated fm f →
  (let '(hooks, hm1) := filterHooks h role hm in
   let '(hooks', hm2) := filterHooks hooks role' hm1 in
   contents hm2 hooks' = contents hm1 hooks ∧
   contents hm2 hooks = contents hm1 hooks) ∧
  (let '(fileAssets, fm1) := filterFileAssets f role fm in
   let '(fileAssets', fm2) := filterFileAssets fileAssets role' fm1 in
   contents fm2 fileAssets' = contents fm1 fileAssets ∧
   contents fm2 fileAssets = contents fm1 fileAssets).
Proof.
  intros Hh Hf. split.
  - destruct (filterHooks h role hm) as [hooks hm1] eqn:Hrun1.
    destruct (filterHooks hooks role' hm1) as [hooks' hm2] eqn:Hrun2.
    apply filterHooks_spec in Hrun1 as (_ & Ho1%owned_allocated & Hc1).
    apply filterHooks_spec in Hrun2 as (He2 & _ & Hc2).
    split; [|by apply contents_extends].
    by rewrite Hc2, Hc1, retainedHooks_again.
  - destruct (filterFileAssets f role fm) as [fileAssets fm1] eqn:Hrun1.
    destruct (filterFileAssets fileAssets role' fm1) as [fileAssets' fm2] eqn:Hrun2.
    apply filterFileAssets_spec in Hrun1 as (_ & Ho1%owned_allocated & Hc1).
    apply filterFileAssets_spec in Hrun2 as (He2 & _ & Hc2).
    split; [|by apply contents_extends].
    by rewrite Hc2, Hc1, retainedFileAssets_again.
Qed.

End extra_filters.

(** ** NewConfig *)

Section extra_nodeup.
Context `{RT : GoRuntime} `{KT : KopsTypes} {KM : KopsMethods}.

(** Where the three slices of the returned [Config] lie. *)
Lemma NewConfig_owned cluster instanceGroup m config bootConfig m' :
  NewConfig cluster instanceGroup m = (config, bootConfig, m') →
  ∃ igHooks clusterHooks,
    cfg_Hooks config = [igHooks; clusterHooks] ∧
    owned (hookArrays m) (hookArrays m') igHooks ∧
    owned (hookArrays m) (hookArrays m') clusterHooks ∧
    owned (fileAssetArrays m) (fileAssetArrays m') (cfg_FileAssets config) ∧
    (∀ a, ptr igHooks = Some a → ptr clusterHooks ≠ Some a).
Proof.
  rewrite NewConfig_eq. simpl.
  destruct (filterHooks (cs_Hooks _) _ _) as [clusterHooks hm1] eqn:E1.
  destruct (filterHooks (igs_Hooks _) _ _) as [igHooks hm2] eqn:E2.
  destruct (filterFileAssets (igs_FileAssets _) _ _) as [igFileAssets fm1] eqn:E3.
  destruct (filterFileAssets (cs_FileAssets _) _ _) as [clusterFileAssets fm2] eqn:E4.
  destruct (appendSlice _ _ _) as [fileAssets fm3] eqn:E5.
  intros [= <- <- <-]. exists igHooks, clusterHooks. simpl.
  apply filterHooks_spec in E1 as (He1 & Ho1 & _).
  apply filterHooks_spec in E2 as (He2 & Ho2 & _).
  apply filterFileAssets_spec in E3 as (He3 & Ho3 & _).
  apply filterFileAssets_spec in E4 as (He4 & Ho4 & _).
  apply (appendList_spec (fileAssetArrays m)) in E5 as (He5 & Ho5 & _);
    [|by eapply extends_trans|by eapply owned_extends].
  split_and!; [done| |by eapply owned_extends|done|].
  - by eapply owned_base.
  - intros a Ha. by eapply owned_disjoint.
Qed.

(** X6.  The returned [Config] takes [ClusterName] and [ContainerRuntime]
    from the cluster and [SysctlParameters] and [VolumeMounts] from the
    instance group, as they are, whatever the role, the provider and the
    other settings. *)
Theorem NewConfig_copied_fields cluster instanceGroup m :
  let config := (NewConfig cluster instanceGroup m).1.1 in
  cfg_ClusterName config = om_Name (cl_ObjectMeta cluster) ∧
  cfg_ContainerRuntime config = cs_ContainerRuntime (cl_Spec cluster) ∧
  cfg_SysctlParameters config = igs_SysctlParameters (ig_Spec instanceGroup) ∧
  cfg_VolumeMounts config = igs_VolumeMounts (ig_Spec instanceGroup).
Proof.
  destruct (NewConfig cluster instanceGroup m) as [[config bootConfig] m'] eqn:Hrun.
  by apply NewConfig_spec in Hrun as (? & ? & ? & -> & _).
Qed.

(** X7.  [NewConfig] fills in no assets, images, channels, additional
    API-server addresses, packages, etcd manifests, static manifests,
    containerd or GPU configuration and no warm-pool images, and it returns
    empty maps of CAs and of keypair ids, for every cluster and instance
    group. *)
Theorem NewConfig_unset_fields cluster instanceGroup m :
  let config := (NewConfig cluster instanceGroup m).1.1 in
  cfg_Assets config = ∅ ∧ cfg_Images config = ∅ ∧
  cfg_Channels config = [] ∧ cfg_ApiserverAdditionalIPs config = [] ∧
  cfg_Packages config = [] ∧ cfg_EtcdManifests config = [] ∧
  cfg_CAs config = ∅ ∧ cfg_KeypairIDs config = ∅ ∧
  cfg_StaticManifests config = [] ∧ cfg_ContainerdConfig config = None ∧
  cfg_NvidiaGPU config = None ∧ cfg_WarmPoolImages config = [].
Proof.
  destruct (NewConfig cluster instanceGroup m) as [[config bootConfig] m'] eqn:Hrun.
  by apply NewConfig_spec in Hrun as (? & ? & ? & -> & _).
Qed.

(** X8.  [KubeletConfig] is the instance group's kubelet configuration
    when it has one, and the zero value otherwise; the cluster's settings
    play no part. *)
Theorem NewConfig_KubeletConfig cluster instanceGroup m :
  cfg_KubeletConfig (NewConfig cluster instanceGroup m).1.1 =
    match igs_Kubelet (ig_Spec instanceGroup) with
    | Some kubelet => kubelet
    | None => KubeletConfigSpec_zero
    end.
Proof.
  destruct (NewConfig cluster instanceGroup m) as [[config bootConfig] m'] eqn:Hrun.
  apply NewConfig_spec in Hrun as (? & ? & ? & -> & _). simpl.
  by destruct (igs_Kubelet _).
Qed.

(** X9.  [EnableLifecycleHook] is set exactly when the cluster has AWS
    settings and the warm pool that these resolve to for the instance
    group is enabled and has its lifecycle hook enabled.  Off AWS it is
    never set. *)
Theorem NewConfig_EnableLifecycleHook cluster instanceGroup m :
  cfg_EnableLifecycleHook (NewConfig cluster instanceGroup m).1.1 = true ↔
  ∃ aws, cp_AWS (cs_CloudProvider (cl_Spec cluster)) = Some aws ∧
    IsEnabled (ResolveDefaults (aws_WarmPool aws) instanceGroup) = true ∧
    wp_EnableLifecycleHook (ResolveDefaults (aws_WarmPool aws) instanceGroup) = true.
Proof.
  destruct (NewConfig cluster instanceGroup m) as [[config bootConfig] m'] eqn:Hrun.
  apply NewConfig_spec in Hrun as (? & ? & ? & -> & _). simpl.
  destruct (cp_AWS _) as [aws|].
  - rewrite andb_true_iff. split; [by exists aws | by intros (? & [= <-] & ?)].
  - split; [done | by intros (? & ? & _)].
Qed.

(** X10.  The slices of the returned [Config], its file assets and its two
    lists of hooks, are nil or lie in arrays that the call has allocated,
    and the two lists of hooks lie in different arrays.  So writing to a
    cell of one of them, or appending to it, changes neither the arrays of
    the cluster and the instance group nor the other list. *)
Theorem NewConfig_slices_fresh cluster instanceGroup m :
  let '(config, _, m') := NewConfig cluster instanceGroup m in
  ∃ igHooks clusterHooks,
    cfg_Hooks config = [igHooks; clusterHooks] ∧
    owned (hookArrays m) (hookArrays m') igHooks ∧
    owned (hookArrays m) (hookArrays m') clusterHooks ∧
    owned (fileAssetArrays m) (fileAssetArrays m') (cfg_FileAssets config) ∧
    (∀ a, ptr igHooks = Some a → ptr clusterHooks ≠ Some a).
Proof.
  destruct (NewConfig cluster instanceGroup m) as [[config bootConfig] m'] eqn:Hrun.
  by eapply NewConfig_owned.
Qed.

(** X11.  When no hook and no file asset of the instance group or of the
    cluster applies to the instance group's role, in particular when there
    are none, the returned [Config] has two nil lists of hooks and nil file
    assets, and [NewConfig] has allocated no array of hooks and no array of
    file assets: both stores of such arrays are as before the call.  (What
    else [NewConfig] allocates, its maps and the structs it returns, is not
    in these stores.) *)
Theorem NewConfig_nothing_applies cluster instanceGroup m :
  let role := igs_Role (ig_Spec instanceGroup) in
  filter (λ hook, hook_Roles hook = [] ∨ role ∈ hook_Roles hook)
    (contents (hookArrays m) (cs_Hooks (cl_Spec cluster))) = [] →
  filter (λ hook, hook_Roles hook = [] ∨ role ∈ hook_Roles hook)
    (contents (hookArrays m) (igs_Hooks (ig_Spec instanceGroup))) = [] →
  filter (λ fileAsset, fa_Roles fileAsset = [] ∨ role ∈ fa_Roles fileAsset)
    (contents (fileAssetArrays m) (cs_FileAssets (cl_Spec cluster))) = [] →
  filter (λ fileAsset, fa_Roles fileAsset = [] ∨ role ∈ fa_Roles fileAsset)
    (contents (fileAssetArrays m) (igs_FileAssets (ig_Spec instanceGroup))) = [] →
  let '(config, _, m') := NewConfig cluster instanceGroup m in
  cfg_Hooks config = [nilSlice; nilSlice] ∧
  cfg_FileAssets config = nilSlice ∧
  m' = m.
Proof.
  intros role HcH HiH HcF HiF. rewrite NewConfig_eq. simpl.
  rewrite (filterHooks_none _ _ _ HcH), (filterHooks_none _ _ _ HiH).
  rewrite (filterFileAssets_none _ _ _ HiF), (filterFileAssets_none _ _ _ HcF).
  rewrite appendSlice_nil. simpl. by destruct m.
Qed.

(** X12.  When the cluster's networking configures AmazonVPC and the
    instance group's [MachineType] has no comma in it, [DefaultMachineType]
    is that machine type, the empty one included. *)
Theorem NewConfig_single_machine_type cluster instanceGroup m :
  net_AmazonVPC (cs_Networking (cl_Spec cluster)) ≠ None →
  (∀ i, String.get i (igs_MachineType (ig_Spec instanceGroup)) ≠ Some comma) →
  cfg_DefaultMachineType (NewConfig cluster instanceGroup m).1.1 =
    Some (igs_MachineType (ig_Spec instanceGroup)).
Proof.
  intros Hvpc Hcomma.
  destruct (NewConfig cluster instanceGroup m) as [[config bootConfig] m'] eqn:Hrun.
  apply NewConfig_spec in Hrun as (? & ? & ? & -> & _). simpl.
  destruct (net_AmazonVPC _); [|done]. f_equal.
  by rewrite Split_no_separator.
Qed.

End extra_nodeup.

(** ** The accessors of task VPC *)

Section extra_fitask.
Context {Lifecycle VPCFields : Type}.
Implicit Types (o q : VPC VPCFields) (cells : list Lifecycle).

(** X13.  After [SetLifecycle] the task's lifecycle, through the pointer
    that [GetLifecycle] returns, is the one given.  The pointer is to a
    cell of its own: the lifecycle of every other task is as before, also
    of one that had shared its cell with this task.  The task's name and
    other fields are as before. *)
Theorem SetLifecycle_GetLifecycle (lifecycle : Lifecycle) o cells :
  let '(o', cells') := SetLifecycle lifecycle o cells in
  lifecycleOf cells' o' = Some lifecycle ∧
  GetName o' = GetName o ∧
  vpc_fields o' = vpc_fields o ∧
  (∀ q l, lifecycleOf cells q = Some l →
     lifecycleOf cells' q = Some l ∧ GetLifecycle q ≠ GetLifecycle o').
Proof.
  unfold SetLifecycle, lifecycleOf, GetLifecycle, GetName. simpl.
  split_and!; [|done|done|].
  - by rewrite lookup_app_r, Nat.sub_diag by lia.
  - intros q l Hq. destruct (vpc_Lifecycle q) as [a|]; [|done]. simpl in *.
    split; [by apply lookup_app_l_Some|].
    apply lookup_lt_Some in Hq. intros [= ->]. lia.
Qed.

End extra_fitask.

(* ===================================================================== *)
(** * Part IV: the claims on the example inputs                           *)
(* ===================================================================== *)

Import Example.

Lemma example_inputsAllocated : inputsAllocated cluster instanceGroup mem.
Proof. unfold inputsAllocated, allocated. simpl. lia. Defined.

(** C1: on the example inputs the returned [BootConfig] has no config
    server and an empty hash. *)
Lemma NewConfig_bootConfig_unpopulated :
  let bootConfig := (NewConfig cluster instanceGroup mem).1.2 in
  bc_ConfigServer bootConfig = None ∧ bc_NodeupConfigHash bootConfig = EmptyString.
Proof. vm_compute. done. Qed.

(** C2 on the example inputs, an instance group of role Node: of the
    instance group's hooks only the one for Bastion and Node is kept, of
    the cluster's only the one without roles; the hooks for ControlPlane
    are left out.  Likewise for the file assets. *)
Lemma role_filter_retains_witness :
  inputsAllocated cluster instanceGroup mem ∧
  allocated (hookArrays mem) (cs_Hooks (cl_Spec cluster)) ∧
  allocated (fileAssetArrays mem) (cs_FileAssets (cl_Spec cluster)) ∧
  let '(config, _, m') := NewConfig cluster instanceGroup mem in
  cfg_Hooks (loadConfig m' config) =
    [ [mkHookSpec [] "ig-node"]; [mkHookSpec [] "cluster-wide"] ] ∧
  cfg_FileAssets (loadConfig m' config) =
    [ mkFileAssetSpec [] "ig-node"; mkFileAssetSpec [] "cluster-all" ].
Proof.
  assert (Hh : allocated (hookArrays mem) (cs_Hooks (cl_Spec cluster)))
    by (unfold allocated; simpl; lia).
  assert (Hf : allocated (fileAssetArrays mem) (cs_FileAssets (cl_Spec cluster)))
    by (unfold allocated; simpl; lia).
  split_and!; [exact example_inputsAllocated | exact Hh | exact Hf |].
  destruct (role_filter_retains cluster instanceGroup mem _ _ "Node"
              example_inputsAllocated Hh Hf) as (_ & _ & Hconfig).
  vm_compute in Hconfig. vm_compute. exact Hconfig.
Defined.

(** C3 on the example inputs. *)
Lemma role_filter_clears_roles_witness :
  inputsAllocated cluster instanceGroup mem ∧
  allocated (hookArrays mem) (igs_Hooks (ig_Spec instanceGroup)) ∧
  allocated (fileAssetArrays mem) (igs_FileAssets (ig_Spec instanceGroup)) ∧
  let '(config, _, m') := NewConfig cluster instanceGroup mem in
  (∀ hooks hook, hooks ∈ cfg_Hooks (loadConfig m' config) → hook ∈ hooks →
     hook_Roles hook = []) ∧
  (∀ fileAsset, fileAsset ∈ cfg_FileAssets (loadConfig m' config) →
     fa_Roles fileAsset = []).
Proof.
  assert (Hh : allocated (hookArrays mem) (igs_Hooks (ig_Spec instanceGroup)))
    by (unfold allocated; simpl; lia).
  assert (Hf : allocated (fileAssetArrays mem) (igs_FileAssets (ig_Spec instanceGroup)))
    by (unfold allocated; simpl; lia).
  split_and!; [exact example_inputsAllocated | exact Hh | exact Hf |].
  exact (proj2 (proj2 (role_filter_clears_roles cluster instanceGroup mem _ _ "Node"
                         example_inputsAllocated Hh Hf))).
Defined.

(** C4 on the example cluster and an instance group of bastions, whose
    own hook and file asset are for other roles: a first call under the
    doubling runtime, and a second call, under the exact runtime, in the
    store that the first call has left.  The headers differ; the values
    agree, with the instance group's list of hooks nil in both. *)
Lemma NewConfig_deterministic_witness :
  let run1 := NewConfig (RT:=runtime) cluster bastionInstanceGroup mem in
  let run2 := NewConfig (RT:=exactRuntime) cluster bastionInstanceGroup run1.2 in
  inputsAllocated cluster bastionInstanceGroup mem ∧
  inputsAllocated cluster bastionInstanceGroup run1.2 ∧
  run1.1.1 ≠ run2.1.1 ∧
  loadConfig run1.2 run1.1.1 = loadConfig run2.2 run2.1.1 ∧
  run1.1.2 = run2.1.2 ∧
  configValue run1.2 run1.1.1 = configValue run2.2 run2.1.1 ∧
  cfg_Hooks (configValue run2.2 run2.1.1) = [None; Some [mkHookSpec [] "cluster-wide"]] ∧
  cfg_FileAssets (configValue run2.2 run2.1.1) = Some [mkFileAssetSpec [] "cluster-all"].
Proof.
  intros run1 run2.
  assert (Hin1 : inputsAllocated cluster bastionInstanceGroup mem)
    by (vm_compute; lia).
  assert (Hin2 : inputsAllocated cluster bastionInstanceGroup run1.2)
    by (vm_compute; lia).
  assert (Hne : run1.1.1 ≠ run2.1.1) by (vm_compute; discriminate).
  assert (Hhooks : cfg_Hooks (configValue run2.2 run2.1.1) =
                   [None; Some [mkHookSpec [] "cluster-wide"]])
    by (vm_compute; reflexivity).
  assert (Hfiles : cfg_FileAssets (configValue run2.2 run2.1.1) =
                   Some [mkFileAssetSpec [] "cluster-all"])
    by (vm_compute; reflexivity).
  split_and!; [exact Hin1 | exact Hin2 | exact Hne | | | | exact Hhooks | exact Hfiles];
    pose proof (NewConfig_deterministic runtime exactRuntime cluster bastionInstanceGroup
                  mem run1.2 Hin1 Hin2
                  ltac:(vm_compute; reflexivity) ltac:(vm_compute; reflexivity)
                  ltac:(vm_compute; reflexivity) ltac:(vm_compute; reflexivity))
      as Hdet;
    fold run1 run2 in Hdet; clear Hne Hhooks Hfiles;
    destruct run1 as [[config1 bootConfig1] m1'], run2 as [[config2 bootConfig2] m2'];
    apply Hdet.
Defined.

(** C8: on the example inputs, an instance group that hosts no API server
    in a cluster of Kubernetes 1.28, the GCE fields are set. *)
Lemma NewConfig_GCE_fields_ungated :
  HasAPIServer instanceGroup = false ∧
  IsKubernetesLT cluster "1.24" = false ∧
  let config := (NewConfig cluster instanceGroup mem).1.1 in
  cfg_Multizone config = Some true ∧
  cfg_NodeTags config = Some "example-k8s-local-k8s-io-role-node" ∧
  cfg_NodeInstancePrefix config = Some "nodes-example".
Proof. vm_compute. done. Qed.

(** C9 on the example inputs. *)
Lemma NewConfig_frame_witness :
  inputsAllocated cluster instanceGroup mem ∧
  let '(config, bootConfig, m') := NewConfig cluster instanceGroup mem in
  (∀ a arr, hookArrays mem !! a = Some arr → hookArrays m' !! a = Some arr) ∧
  (∀ a arr, fileAssetArrays mem !! a = Some arr → fileAssetArrays m' !! a = Some arr) ∧
  contents (hookArrays m') (cs_Hooks (cl_Spec cluster)) =
    [ mkHookSpec [] "cluster-wide"; mkHookSpec ["ControlPlane"] "cluster-control-plane" ] ∧
  contents (hookArrays m') (igs_Hooks (ig_Spec instanceGroup)) =
    [ mkHookSpec ["ControlPlane"] "ig-control-plane";
      mkHookSpec ["Bastion"; "Node"] "ig-node" ] ∧
  contents (fileAssetArrays m') (cs_FileAssets (cl_Spec cluster)) =
    [ mkFileAssetSpec [] "cluster-all";
      mkFileAssetSpec ["ControlPlane"] "cluster-control-plane" ] ∧
  contents (fileAssetArrays m') (igs_FileAssets (ig_Spec instanceGroup)) =
    [ mkFileAssetSpec ["Node"] "ig-node" ].
Proof.
  split; [exact example_inputsAllocated|].
  exact (NewConfig_frame cluster instanceGroup mem example_inputsAllocated).
Defined.

(** C10: an update policy that is set to the empty string is copied. *)
Lemma NewConfig_UpdatePolicy_empty :
  igs_UpdatePolicy (ig_Spec instanceGroupEmptyPolicy) = Some EmptyString ∧
  cfg_UpdatePolicy (NewConfig cluster instanceGroupEmptyPolicy mem).1.1 = EmptyString.
Proof. vm_compute. done. Qed.

(** C10 on the example inputs: neither the instance group nor the cluster
    sets a policy, and the automatic policy is not empty. *)
Lemma NewConfig_UpdatePolicy_witness :
  igs_UpdatePolicy (ig_Spec instanceGroup) ≠ Some EmptyString ∧
  cs_UpdatePolicy (cl_Spec cluster) ≠ Some EmptyString ∧
  UpdatePolicyAutomatic ≠ EmptyString ∧
  cfg_UpdatePolicy (NewConfig cluster instanceGroup mem).1.1 = "automatic" ∧
  cfg_UpdatePolicy (NewConfig cluster instanceGroup mem).1.1 ≠ EmptyString.
Proof.
  destruct (NewConfig_UpdatePolicy cluster instanceGroup mem) as [Hpolicy Hnonempty].
  split_and!; [done|done|done|exact Hpolicy|].
  apply Hnonempty; done.
Defined.

(** The store does record writes to shared arrays: appending to a slice
    that shares the array of the cluster's hooks and has capacity left
    overwrites a hook of the cluster.  [NewConfig] performs no such
    [append] (C9). *)
Lemma append_writes_shared_array :
  let shared := mkSlice (Some 0) 0 1 4 in
  contents (T:=HookSpec)
    (append (T:=HookSpec) shared (mkHookSpec [] "appended") (hookArrays mem)).2
    (cs_Hooks (cl_Spec cluster)) =
  [ mkHookSpec [] "appended"; mkHookSpec ["ControlPlane"] "cluster-control-plane" ].
Proof. vm_compute. reflexivity. Qed.

(** ** The further properties on the example inputs *)

(** X2 for role Bastion: the two cells after the cluster's first hook
    hold a hook for ControlPlane and one for Node, and the cluster's second
    file asset is for ControlPlane. *)
Lemma role_filter_nothing_applies_witness :
  let h := mkSlice (Some 0) 2 2 2 in
  let f := mkSlice (Some 0) 1 1 1 in
  filter (λ hook, hook_Roles hook = [] ∨ "Bastion" ∈ hook_Roles hook)
    (contents (hookArrays mem) h) = [] ∧
  filter (λ fileAsset, fa_Roles fileAsset = [] ∨ "Bastion" ∈ fa_Roles fileAsset)
    (contents (fileAssetArrays mem) f) = [] ∧
  filterHooks h "Bastion" (hookArrays mem) = (nilSlice, hookArrays mem) ∧
  filterFileAssets f "Bastion" (fileAssetArrays mem) = (nilSlice, fileAssetArrays mem).
Proof.
  intros h f.
  destruct (role_filter_nothing_applies h f "Bastion" (hookArrays mem)
              (fileAssetArrays mem)) as [Hhooks Hfiles].
  assert (Hh : filter (λ hook, hook_Roles hook = [] ∨ "Bastion" ∈ hook_Roles hook)
                 (contents (hookArrays mem) h) = []) by (vm_compute; reflexivity).
  assert (Hf : filter (λ fileAsset, fa_Roles fileAsset = [] ∨ "Bastion" ∈ fa_Roles fileAsset)
                 (contents (fileAssetArrays mem) f) = []) by (vm_compute; reflexivity).
  split; [exact Hh|]. split; [exact Hf|]. split; [exact (Hhooks Hh) | exact (Hfiles Hf)].
Defined.

(** X4 on the hooks and file assets of the example cluster, for role
    Node. *)
Lemma role_filter_length_witness :
  let h := cs_Hooks (cl_Spec cluster) in
  let f := cs_FileAssets (cl_Spec cluster) in
  allocated (hookArrays mem) h ∧
  allocated (fileAssetArrays mem) f ∧
  (let '(hooks, _) := filterHooks h "Node" (hookArrays mem) in
   len hooks =
     length (filter (λ hook, hook_Roles hook = [] ∨ "Node" ∈ hook_Roles hook)
               (contents (hookArrays mem) h)) ∧
   len hooks ≤ len h) ∧
  (let '(fileAssets, _) := filterFileAssets f "Node" (fileAssetArrays mem) in
   len fileAssets =
     length (filter (λ fileAsset, fa_Roles fileAsset = [] ∨ "Node" ∈ fa_Roles fileAsset)
               (contents (fileAssetArrays mem) f)) ∧
   len fileAssets ≤ len f).
Proof.
  intros h f.
  assert (Hh : allocated (hookArrays mem) h) by (unfold allocated; simpl; lia).
  assert (Hf : allocated (fileAssetArrays mem) f) by (unfold allocated; simpl; lia).
  split; [exact Hh|]. split; [exact Hf|].
  exact (role_filter_length h f "Node" (hookArrays mem) (fileAssetArrays mem) Hh Hf).
Defined.

(** X5 on the hooks and file assets of the example cluster: filtered for
    role Node, and again for role ControlPlane. *)
Lemma role_filter_twice_witness :
  let h := cs_Hooks (cl_Spec cluster) in
  let f := cs_FileAssets (cl_Spec cluster) in
  allocated (hookArrays mem) h ∧
  allocated (fileAssetArrays mem) f ∧
  (let '(hooks, hm1) := filterHooks h "Node" (hookArrays mem) in
   let '(hooks', hm2) := filterHooks hooks "ControlPlane" hm1 in
   contents hm2 hooks' = contents hm1 hooks ∧
   contents hm2 hooks = contents hm1 hooks) ∧
  (let '(fileAssets, fm1) := filterFileAssets f "Node" (fileAssetArrays mem) in
   let '(fileAssets', fm2) := filterFileAssets fileAssets "ControlPlane" fm1 in
   contents fm2 fileAssets' = contents fm1 fileAssets ∧
   contents fm2 fileAssets = contents fm1 fileAssets).
Proof.
  intros h f.
  assert (Hh : allocated (hookArrays mem) h) by (unfold allocated; simpl; lia).
  assert (Hf : allocated (fileAssetArrays mem) f) by (unfold allocated; simpl; lia).
  split; [exact Hh|]. split; [exact Hf|].
  exact (role_filter_twice h f "Node" "ControlPlane" (hookArrays mem)
           (fileAssetArrays mem) Hh Hf).
Defined.

(** X11 on a cluster and an instance group of bastions that have hooks
    and file assets, all of them for other roles. *)
Lemma NewConfig_nothing_applies_witness :
  filter (λ hook, hook_Roles hook = [] ∨ "Bastion" ∈ hook_Roles hook)
    (contents (hookArrays mem) (cs_Hooks (cl_Spec otherRolesCluster))) = [] ∧
  filter (λ hook, hook_Roles hook = [] ∨ "Bastion" ∈ hook_Roles hook)
    (contents (hookArrays mem) (igs_Hooks (ig_Spec bastionInstanceGroup))) = [] ∧
  filter (λ fileAsset, fa_Roles fileAsset = [] ∨ "Bastion" ∈ fa_Roles fileAsset)
    (contents (fileAssetArrays mem) (cs_FileAssets (cl_Spec otherRolesCluster))) = [] ∧
  filter (λ fileAsset, fa_Roles fileAsset = [] ∨ "Bastion" ∈ fa_Roles fileAsset)
    (contents (fileAssetArrays mem) (igs_FileAssets (ig_Spec bastionInstanceGroup))) = [] ∧
  length (contents (hookArrays mem) (cs_Hooks (cl_Spec otherRolesCluster))) = 2 ∧
  length (contents (hookArrays mem) (igs_Hooks (ig_Spec bastionInstanceGroup))) = 1 ∧
  length (contents (fileAssetArrays mem) (cs_FileAssets (cl_Spec otherRolesCluster))) = 1 ∧
  length (contents (fileAssetArrays mem) (igs_FileAssets (ig_Spec bastionInstanceGroup))) = 1 ∧
  let '(config, _, m') := NewConfig otherRolesCluster bastionInstanceGroup mem in
  cfg_Hooks config = [nilSlice; nilSlice] ∧
  cfg_FileAssets config = nilSlice ∧
  m' = mem.
Proof.
  assert (HcH : filter (λ hook, hook_Roles hook = [] ∨ "Bastion" ∈ hook_Roles hook)
            (contents (hookArrays mem) (cs_Hooks (cl_Spec otherRolesCluster))) = [])
    by (vm_compute; reflexivity).
  assert (HiH : filter (λ hook, hook_Roles hook = [] ∨ "Bastion" ∈ hook_Roles hook)
            (contents (hookArrays mem) (igs_Hooks (ig_Spec bastionInstanceGroup))) = [])
    by (vm_compute; reflexivity).
  assert (HcF : filter (λ fileAsset, fa_Roles fileAsset = [] ∨ "Bastion" ∈ fa_Roles fileAsset)
            (contents (fileAssetArrays mem) (cs_FileAssets (cl_Spec otherRolesCluster))) = [])
    by (vm_compute; reflexivity).
  assert (HiF : filter (λ fileAsset, fa_Roles fileAsset = [] ∨ "Bastion" ∈ fa_Roles fileAsset)
            (contents (fileAssetArrays mem) (igs_FileAssets (ig_Spec bastionInstanceGroup))) = [])
    by (vm_compute; reflexivity).
  split; [exact HcH|]. split; [exact HiH|]. split; [exact HcF|]. split; [exact HiF|].
  split; [reflexivity|]. split; [reflexivity|]. split; [reflexivity|]. split; [reflexivity|].
  exact (NewConfig_nothing_applies otherRolesCluster bastionInstanceGroup mem
           HcH HiH HcF HiF).
Defined.

(** X12 on the same inputs: the machine type t3.micro has no comma. *)
Lemma NewConfig_single_machine_type_witness :
  net_AmazonVPC (cs_Networking (cl_Spec bareCluster)) ≠ None ∧
  cfg_DefaultMachineType (NewConfig bareCluster bareInstanceGroup mem).1.1 =
    Some "t3.micro".
Proof.
  assert (Hvpc : net_AmazonVPC (cs_Networking (cl_Spec bareCluster)) ≠ None) by done.
  split; [exact Hvpc|].
  apply (NewConfig_single_machine_type bareCluster bareInstanceGroup mem Hvpc).
  intros i. simpl. do 8 (destruct i as [|i]; [discriminate|]). discriminate.
Defined.

(** X13 on two tasks that share the cell of their lifecycle: setting the
    lifecycle of the one leaves that of the other. *)
Lemma SetLifecycle_GetLifecycle_witness :
  let after := SetLifecycle "ExistsAndWarnIfChanges" vpc lifecycleCells in
  lifecycleOf lifecycleCells vpc = Some "Sync" ∧
  lifecycleOf lifecycleCells otherVPC = Some "Sync" ∧
  lifecycleOf after.2 after.1 = Some "ExistsAndWarnIfChanges" ∧
  lifecycleOf after.2 otherVPC = Some "Sync" ∧
  GetName after.1 = Some "vpc-main".
Proof.
  intros after.
  pose proof (SetLifecycle_GetLifecycle "ExistsAndWarnIfChanges" vpc lifecycleCells)
    as Hset.
  fold after in Hset. destruct after as [o' cells'].
  destruct Hset as (Hnew & Hname & _ & Hothers).
  assert (Hother : lifecycleOf lifecycleCells otherVPC = Some "Sync") by reflexivity.
  cbn [fst snd].
  split_and!; [reflexivity | exact Hother | exact Hnew | | by rewrite Hname].
  exact (proj1 (Hothers otherVPC "Sync" Hother)).
Defined.
